(** * tAPI: a shallow embedding of the todo service and its specification

    The development follows the layout of the repository:

    - [Py]        the Python string primitives the handlers rely on
                  ([str.strip], [str.endswith], truthiness,
                  [secrets.compare_digest]);
    - [Http]      handler outcomes ([HTTPException] status codes);
    - [Security]  [app/core/security.py];
    - [Todo], [CreateBody], [TodoCreate], [TodoUpdate], [TodoRead]
                  [app/models.py] and [app/schemas.py];
    - [Sql]       the statements the handlers send through the session
                  (primary-key lookup, INSERT, UPDATE, DELETE, SELECT with
                  WHERE clauses and LIMIT, ILIKE patterns);
    - [Api]       the handlers of [app/api/todos.py];
    - [Routes]    the routes around them: the security dependency, then the
                  handler, then the response model;
    - [Db]        the connection arguments of [app/db.py];
    - [Spec]      the words of the specification, as predicates;
    - [Sample]    the items of the specification's examples.

    Strings are [String.string], sequences of 8-bit characters: a header
    value reaches the validator decoded as Latin-1, one [ascii] per
    character.  Case is folded on the letters of Latin-1, as the backend
    folds it in ILIKE.  Integers are [Z], as Python integers are unbounded;
    identifiers ([UUID]) are their 128-bit value as [N]; timestamps are [Z]
    (microseconds since the epoch).  A value of a request body is a [field]:
    missing, null, a value of the declared type, or a value of another
    type.  The backend's columns are modelled with their limits: an
    integer column holds 32 bits, a text column holds no NUL character, a
    column left out of an INSERT takes its default, and an UPDATE sends the
    columns that changed.  The order of the rows of a SELECT is the order of
    the table, where an updated row comes after the others. *)

From Stdlib Require Import List String Ascii ZArith NArith Bool Lia Permutation.
Import ListNotations.

Local Open Scope string_scope.
Local Open Scope list_scope.
Local Open Scope Z_scope.

(** ** Python primitives *)

Module Py.

(** [bool(x)] for an [Optional[str]]: [None] and the empty string are
    falsy. *)
Definition truthy (x : option string) : bool :=
  match x with
  | None => false
  | Some EmptyString => false
  | Some (String _ _) => true
  end.

(** [str.isspace] on one character of the Latin-1 range: TAB, LF, VT, FF,
    CR, the separators FS, GS, RS, US, SPACE, NEL and NBSP. *)
Definition isspace (c : ascii) : bool :=
  let n := nat_of_ascii c in
  ((9 <=? n) && (n <=? 13) || (28 <=? n) && (n <=? 32)
   || (n =? 133) || (n =? 160))%nat.

Fixpoint lstrip (s : string) : string :=
  match s with
  | EmptyString => EmptyString
  | String c s' => if isspace c then lstrip s' else s
  end.

(** [rstrip] keeps a character when it is not a space or when something
    that is kept follows it. *)
Fixpoint rstrip (s : string) : string :=
  match s with
  | EmptyString => EmptyString
  | String c s' =>
      match rstrip s' with
      | EmptyString => if isspace c then EmptyString else String c EmptyString
      | r => String c r
      end
  end.

(** [str.strip()] without argument. *)
Definition strip (s : string) : string := rstrip (lstrip s).

(** [str.isascii]: every code point is below 128. *)
Fixpoint isascii (s : string) : bool :=
  match s with
  | EmptyString => true
  | String c s' => (nat_of_ascii c <? 128)%nat && isascii s'
  end.

(** [secrets.compare_digest] on two [str]: a [TypeError] ([None] here) when
    either argument has a non-ASCII character, equality otherwise. *)
Definition compare_digest (a b : string) : option bool :=
  if isascii a && isascii b then Some (String.eqb a b) else None.

(** Lower-casing of one character and of a string: the capital letters of
    the Latin-1 range (A to Z, and the accented capitals 192 to 222 without
    the multiplication sign 215) are 32 below their small letters. *)
Definition lower_char (c : ascii) : ascii :=
  let n := nat_of_ascii c in
  if ((65 <=? n) && (n <=? 90)
      || (192 <=? n) && (n <=? 222) && negb (n =? 215))%nat
  then ascii_of_nat (n + 32) else c.

Fixpoint lower (s : string) : string :=
  match s with
  | EmptyString => EmptyString
  | String c s' => String (lower_char c) (lower s')
  end.

(** [s.endswith(suffix)]: some tail of [s] is [suffix]. *)
Fixpoint endswith (s suffix : string) : bool :=
  String.eqb s suffix
  || match s with
     | EmptyString => false
     | String _ s' => endswith s' suffix
     end.

End Py.

(** ** Handler outcomes *)

Module Http.

(** A handler returns a value or raises; [HTTPException(status_code=n)]
    is [Raise n].  An exception that no handler catches surfaces as
    status 500, a request that fails parameter or body validation as 422. *)
Inductive outcome (A : Type) : Type :=
| Ok (a : A)
| Raise (status_code : Z).

Arguments Ok {A} a.
Arguments Raise {A} status_code.

Definition HTTP_401_UNAUTHORIZED : Z := 401.
Definition HTTP_403_FORBIDDEN : Z := 403.
Definition HTTP_404_NOT_FOUND : Z := 404.
Definition HTTP_422_UNPROCESSABLE : Z := 422.
Definition HTTP_500_INTERNAL : Z := 500.

End Http.
Import Http.

(** ** app/core/security.py *)

Module Security.

Section Validator.

(** [settings.API_KEY]: the configuration module is not part of the
    sources, the configured secret is a parameter. *)
Variable API_KEY : string.

(** The validator: 401 on a falsy header value; the value is stripped and
    compared with the configured secret; 403 when they differ; the stripped
    value is returned otherwise.  A [TypeError] of the comparison is not
    caught. *)
Definition get_api_key (api_key : option string) : outcome string :=
  if negb (Py.truthy api_key) then Raise HTTP_401_UNAUTHORIZED
  else
    match api_key with
    | None => Raise HTTP_401_UNAUTHORIZED
    | Some k =>
        let api_key := Py.strip k in
        match Py.compare_digest api_key API_KEY with
        | None => Raise HTTP_500_INTERNAL
        | Some false => Raise HTTP_403_FORBIDDEN
        | Some true => Ok api_key
        end
    end.

End Validator.

End Security.

(** ** app/models.py *)

Definition UUID := N.
Definition datetime := Z.

(** A [Todo] object.  The attributes are those of [TodoBase] and [Todo];
    [title] is declared [str], which makes its column NOT NULL, but the
    Python object holds whatever [setattr] stores in it, so the attribute is
    an [option] and the constraint is checked when the session flushes
    (see [Sql.not_null]). *)
Module Todo.

Record t : Type := mk {
  id : UUID;
  title : option string;
  description : option string;
  due_at : option datetime;
  estimated_minutes : option Z;
  status : option string;
  priority : option Z;
  tags : option (list string);
  created_at : datetime;
  updated_at : option datetime
}.

End Todo.

(** ** app/schemas.py *)

(** One key of a JSON body: missing, [null], a value that the validator
    reads as an [A], or a value that it cannot read as one (a number for a
    title, a text that is no date, a list with a number in it).  Pydantic
    records the keys that were present in [model_fields_set]; [Unset] is a
    key that is not in that set. *)
Inductive field (A : Type) : Type :=
| Unset
| Null
| Value (a : A)
| IllTyped.

Arguments Unset {A}.
Arguments Null {A}.
Arguments Value {A} a.
Arguments IllTyped {A}.

(** [Optional[T] = Field(default)]: a missing key takes the default, which
    is not validated; [null] is accepted; a value must be of the type and
    pass the constraint. *)
Definition optional_field {A} (default : option A) (constraint : A -> bool)
  (f : field A) : option (option A) :=
  match f with
  | Unset => Some default
  | Null => Some None
  | Value a => if constraint a then Some (Some a) else None
  | IllTyped => None
  end.

(** [T = Field(...)]: the key is required and [null] is not a [T]. *)
Definition required_field {A} (constraint : A -> bool) (f : field A) : option A :=
  match f with
  | Value a => if constraint a then Some a else None
  | _ => None
  end.

Definition unconstrained {A} (_ : A) : bool := true.
Definition ge (lo : Z) (v : Z) : bool := lo <=? v.
Definition ge_le (lo hi : Z) (v : Z) : bool := (lo <=? v) && (v <=? hi).

(** The JSON body of [POST /todos/], before validation.  Keys that
    [TodoCreate] does not declare are ignored and are not represented. *)
Module CreateBody.

Record t : Type := mk {
  title : field string;
  description : field string;
  due_at : field datetime;
  estimated_minutes : field Z;
  priority : field Z;
  tags : field (list string)
}.

End CreateBody.

Module TodoCreate.

Record t : Type := mk {
  title : string;
  description : option string;
  due_at : option datetime;
  estimated_minutes : option Z;
  priority : option Z;
  tags : option (list string)
}.

(** Validation of a body against the field declarations of [TodoCreate];
    [None] is a validation error. *)
Definition validate (b : CreateBody.t) : option t :=
  match required_field unconstrained (CreateBody.title b),
        optional_field None unconstrained (CreateBody.description b),
        optional_field None unconstrained (CreateBody.due_at b),
        optional_field None (ge 0) (CreateBody.estimated_minutes b),
        optional_field (Some 3) (ge_le 1 5) (CreateBody.priority b),
        optional_field None unconstrained (CreateBody.tags b)
  with
  | Some ti, Some de, Some du, Some es, Some pr, Some ta =>
      Some (mk ti de du es pr ta)
  | _, _, _, _, _, _ => None
  end.

End TodoCreate.

(** [TodoUpdate]: every field is [Optional] with default [None]; the model
    keeps, for each field, whether the key was present. *)
Module TodoUpdate.

Record t : Type := mk {
  title : field string;
  description : field string;
  due_at : field datetime;
  estimated_minutes : field Z;
  status : field string;
  priority : field Z;
  tags : field (list string)
}.

Definition field_ok {A} (constraint : A -> bool) (f : field A) : bool :=
  match optional_field None constraint f with
  | Some _ => true
  | None => false
  end.

(** Validation of a PATCH body: every value must be of the type of its
    field, and the two numeric fields within their bounds. *)
Definition validate (p : t) : option t :=
  if field_ok unconstrained (title p)
     && field_ok unconstrained (description p)
     && field_ok unconstrained (due_at p)
     && field_ok (ge 0) (estimated_minutes p)
     && field_ok unconstrained (status p)
     && field_ok (ge_le 1 5) (priority p)
     && field_ok unconstrained (tags p)
  then Some p else None.

(** One item of [patch.model_dump(exclude_unset=True)]: the attribute name
    with the value to store. *)
Inductive item : Type :=
| Title (v : option string)
| Description (v : option string)
| Due_at (v : option datetime)
| Estimated_minutes (v : option Z)
| Status (v : option string)
| Priority (v : option Z)
| Tags (v : option (list string)).

(** A validated model holds no ill-typed value; the case is given the
    empty dump. *)
Definition dump_field {A} (key : option A -> item) (f : field A) : list item :=
  match f with
  | Unset => []
  | Null => [key None]
  | Value a => [key (Some a)]
  | IllTyped => []
  end.

(** [model_dump(exclude_unset=True)], in field declaration order. *)
Definition model_dump_exclude_unset (p : t) : list item :=
  dump_field Title (title p) ++
  dump_field Description (description p) ++
  dump_field Due_at (due_at p) ++
  dump_field Estimated_minutes (estimated_minutes p) ++
  dump_field Status (status p) ++
  dump_field Priority (priority p) ++
  dump_field Tags (tags p).

End TodoUpdate.

(** [setattr(todo, k, v)] for one dumped item. *)
Definition setattr (todo : Todo.t) (kv : TodoUpdate.item) : Todo.t :=
  let '(Todo.mk i ti de du es st pr ta cr up) := todo in
  match kv with
  | TodoUpdate.Title v => Todo.mk i v de du es st pr ta cr up
  | TodoUpdate.Description v => Todo.mk i ti v du es st pr ta cr up
  | TodoUpdate.Due_at v => Todo.mk i ti de v es st pr ta cr up
  | TodoUpdate.Estimated_minutes v => Todo.mk i ti de du v st pr ta cr up
  | TodoUpdate.Status v => Todo.mk i ti de du es v pr ta cr up
  | TodoUpdate.Priority v => Todo.mk i ti de du es st v ta cr up
  | TodoUpdate.Tags v => Todo.mk i ti de du es st pr v cr up
  end.

Definition set_updated_at (todo : Todo.t) (now : datetime) : Todo.t :=
  let '(Todo.mk i ti de du es st pr ta cr _) := todo in
  Todo.mk i ti de du es st pr ta cr (Some now).

(** ** The statements sent through the session *)

Module Sql.

(** The [todo] table: its rows, oldest first. *)
Definition table := list Todo.t.

Definition has_id (item_id : UUID) (row : Todo.t) : bool :=
  N.eqb (Todo.id row) item_id.

(** [session.get(Todo, item_id)]: lookup by primary key. *)
Definition get (item_id : UUID) (db : table) : option Todo.t :=
  find (has_id item_id) db.

(** The NOT NULL constraint of the [title] column ([title: str] in
    [TodoBase]; the other [TodoBase] columns are [Optional]). *)
Definition not_null (row : Todo.t) : bool :=
  match Todo.title row with Some _ => true | None => false end.

(** What the columns take.  A text value cannot hold the NUL character; an
    INTEGER column holds 32-bit signed integers. *)
Fixpoint text_ok (s : string) : bool :=
  match s with
  | EmptyString => true
  | String c s' => negb (Ascii.eqb c zero) && text_ok s'
  end.

Definition int4 (v : Z) : bool := (-2147483648 <=? v) && (v <=? 2147483647).

(** A nullable column against the values it takes: NULL is taken. *)
Definition takes {A} (ok : A -> bool) (v : option A) : bool :=
  match v with
  | Some a => ok a
  | None => true
  end.

(** The values of a row are ones that its columns take ([tags] is a JSON
    column, [due_at] and the other timestamps are not constrained here). *)
Definition storable (row : Todo.t) : bool :=
  takes text_ok (Todo.title row)
  && takes text_ok (Todo.description row)
  && takes int4 (Todo.estimated_minutes row)
  && takes text_ok (Todo.status row)
  && takes int4 (Todo.priority row).

(** The column defaults of an INSERT: an attribute that is [None] is left
    out of the statement, and [status] and [priority] then take the defaults
    declared in [TodoBase] ("todo" and 3). *)
Definition with_defaults (row : Todo.t) : Todo.t :=
  Todo.mk (Todo.id row) (Todo.title row) (Todo.description row)
          (Todo.due_at row) (Todo.estimated_minutes row)
          (match Todo.status row with Some s => Some s | None => Some "todo" end)
          (match Todo.priority row with Some p => Some p | None => Some 3 end)
          (Todo.tags row) (Todo.created_at row) (Todo.updated_at row).

(** INSERT: the row is stored with the column defaults filled in and becomes
    the last row; the statement is refused ([None]) when the primary key is
    taken, a NOT NULL column is null or a column does not take its value. *)
Definition insert (row : Todo.t) (db : table) : option table :=
  let row := with_defaults row in
  if not_null row && storable row && negb (existsb (has_id (Todo.id row)) db)
  then Some (db ++ [row]) else None.

(** DELETE ... WHERE id = [item_id]. *)
Definition delete (item_id : UUID) (db : table) : table :=
  filter (fun r => negb (has_id item_id r)) db.

(** Two values of a nullable column are the same. *)
Definition same {A} (eqb : A -> A -> bool) (old new : option A) : bool :=
  match old, new with
  | None, None => true
  | Some a, Some b => eqb a b
  | _, _ => false
  end.

(** One column of an UPDATE: it is part of the SET clause when its value
    changed, and the column must then take the new value. *)
Definition set_ok {A} (eqb : A -> A -> bool) (ok : option A -> bool)
  (old new : option A) : bool :=
  same eqb old new || ok new.

(** UPDATE ... SET the changed columns WHERE id = [Todo.id row].  The
    statement is refused ([None]) when [title] is set to NULL, when a column
    does not take its new value, or when no row has the identifier; the new
    version of the row is read after the other rows. *)
Definition update (row : Todo.t) (db : table) : option table :=
  match get (Todo.id row) db with
  | None => None
  | Some old =>
      if set_ok String.eqb
           (fun v => match v with Some t => text_ok t | None => false end)
           (Todo.title old) (Todo.title row)
         && set_ok String.eqb (takes text_ok)
              (Todo.description old) (Todo.description row)
         && set_ok Z.eqb (takes int4)
              (Todo.estimated_minutes old) (Todo.estimated_minutes row)
         && set_ok String.eqb (takes text_ok) (Todo.status old) (Todo.status row)
         && set_ok Z.eqb (takes int4) (Todo.priority old) (Todo.priority row)
      then Some (delete (Todo.id row) db ++ [row])
      else None
  end.

(** *** LIKE patterns

    [%] matches any run of characters, [_] any one character, a backslash
    makes the next pattern character literal; everything else matches
    itself.  A pattern that ends in a lone backslash is an error in the
    backend; the patterns built by [list_todos] end in [%], so the case is
    never reached and is given [false]. *)
Fixpoint like (p : string) : string -> bool :=
  match p with
  | EmptyString =>
      fun t => match t with EmptyString => true | String _ _ => false end
  | String c p' =>
      if Ascii.eqb c "%" then
        fix any (t : string) : bool :=
          like p' t
          || match t with EmptyString => false | String _ t' => any t' end
      else if Ascii.eqb c "_" then
        fun t => match t with EmptyString => false | String _ t' => like p' t' end
      else if Ascii.eqb c "\" then
        match p' with
        | EmptyString => fun _ => false
        | String e p'' =>
            fun t =>
              match t with
              | EmptyString => false
              | String x t' => Ascii.eqb e x && like p'' t'
              end
        end
      else
        fun t =>
          match t with
          | EmptyString => false
          | String x t' => Ascii.eqb c x && like p' t'
          end
  end.

(** The pattern ends in a backslash that escapes nothing. *)
Fixpoint dangling_escape (p : string) : bool :=
  match p with
  | EmptyString => false
  | String c p' =>
      if Ascii.eqb c "\" then
        match p' with
        | EmptyString => true
        | String _ p'' => dangling_escape p''
        end
      else dangling_escape p'
  end.

(** [column.ilike(pattern)]: LIKE on the lower-cased operands; NULL never
    matches. *)
Definition ilike (column : option string) (pattern : string) : bool :=
  match column with
  | Some v => like (Py.lower pattern) (Py.lower v)
  | None => false
  end.

(** [cast(column, JSONB) @> jsonb_build_array(tag)]: the array in the column
    contains every element of the one-element array [[tag]]; a null column
    contains nothing. *)
Definition jsonb_contains (column : option (list string)) (tag : string) : bool :=
  match column with
  | Some arr => existsb (String.eqb tag) arr
  | None => false
  end.

(** [column == value]: NULL is equal to nothing. *)
Definition eq_str (column : option string) (value : string) : bool :=
  match column with
  | Some v => String.eqb v value
  | None => false
  end.

(** *** SELECT statements *)

Record statement : Type := mk_statement {
  whereclause : list (Todo.t -> bool);
  limit_clause : option Z
}.

Definition select_Todo : statement := mk_statement [] None.

Definition where_ (s : statement) (criterion : Todo.t -> bool) : statement :=
  mk_statement (whereclause s ++ [criterion]) (limit_clause s).

Definition limit (s : statement) (n : Z) : statement :=
  mk_statement (whereclause s) (Some n).

Definition satisfies (s : statement) (row : Todo.t) : bool :=
  forallb (fun criterion => criterion row) (whereclause s).

(** Running a SELECT: the rows that satisfy every criterion, cut at the
    LIMIT; a negative LIMIT is refused by the backend ([None]). *)
Definition exec (s : statement) (db : table) : option (list Todo.t) :=
  let rows := filter (satisfies s) db in
  match limit_clause s with
  | None => Some rows
  | Some n => if n <? 0 then None else Some (firstn (Z.to_nat n) rows)
  end.

End Sql.

(** ** A session: the table threaded through a handler *)

Definition Session (A : Type) : Type := Sql.table -> outcome A * Sql.table.

Definition ret {A} (a : A) : Session A := fun db => (Ok a, db).

Definition raise {A} (status_code : Z) : Session A :=
  fun db => (Raise status_code, db).

Definition bind {A B} (m : Session A) (k : A -> Session B) : Session B :=
  fun db =>
    match m db with
    | (Ok a, db') => k a db'
    | (Raise e, db') => (Raise e, db')
    end.

Notation "x <- m ;; k" := (bind m (fun x => k))
  (at level 61, m at next level, right associativity).

(** [session.get(Todo, item_id)]. *)
Definition session_get (item_id : UUID) : Session (option Todo.t) :=
  fun db => (Ok (Sql.get item_id db), db).

(** [session.add(todo); session.commit()] for a new object.  A statement the
    backend refuses raises out of the [with] block, nothing is committed and
    the request ends with status 500. *)
Definition session_add_new (todo : Todo.t) : Session unit :=
  fun db =>
    match Sql.insert todo db with
    | Some db' => (Ok tt, db')
    | None => (Raise HTTP_500_INTERNAL, db)
    end.

(** [session.add(todo); session.commit()] for a loaded, modified object. *)
Definition session_add_dirty (todo : Todo.t) : Session unit :=
  fun db =>
    match Sql.update todo db with
    | Some db' => (Ok tt, db')
    | None => (Raise HTTP_500_INTERNAL, db)
    end.

(** [session.delete(todo); session.commit()]. *)
Definition session_delete (todo : Todo.t) : Session unit :=
  fun db => (Ok tt, Sql.delete (Todo.id todo) db).

(** [session.refresh(todo)]: the object is reloaded from its row, column
    defaults included. *)
Definition session_refresh (todo : Todo.t) : Session Todo.t :=
  fun db =>
    match Sql.get (Todo.id todo) db with
    | Some row => (Ok row, db)
    | None => (Raise HTTP_500_INTERNAL, db)
    end.

(** [session.exec(statement).all()]. *)
Definition session_exec (s : Sql.statement) : Session (list Todo.t) :=
  fun db =>
    match Sql.exec s db with
    | Some rows => (Ok rows, db)
    | None => (Raise HTTP_500_INTERNAL, db)
    end.

(** ** app/api/todos.py *)

Module Api.

(** The [Todo] built from [item.model_dump()]: the six dumped fields, the defaults of the
    model for the rest ([status = "todo"], no [updated_at]); [uuid4()] and
    [datetime.now(timezone.utc)] are the two readings of the environment,
    passed in as [new_id] and [now]. *)
Definition new_Todo (new_id : UUID) (now : datetime) (item : TodoCreate.t) : Todo.t :=
  Todo.mk new_id
          (Some (TodoCreate.title item))
          (TodoCreate.description item)
          (TodoCreate.due_at item)
          (TodoCreate.estimated_minutes item)
          (Some "todo")
          (TodoCreate.priority item)
          (TodoCreate.tags item)
          now
          None.

Definition create_todo (new_id : UUID) (now : datetime) (item : TodoCreate.t)
  : Session Todo.t :=
  let todo := new_Todo new_id now item in
  _ <- session_add_new todo ;;
  session_refresh todo.

(** [limit: int = Query(100, le=1000)]: the default when the parameter is
    missing, a validation error when it exceeds the bound. *)
Definition Query_le (default bound : Z) (param : option Z) : option Z :=
  match param with
  | None => Some default
  | Some v => if v <=? bound then Some v else None
  end.

(** The string held by an [Optional[str]] that passed [if x:]. *)
Definition the (x : option string) : string :=
  match x with Some s => s | None => "" end.

Definition list_todos (q tag status : option string) (limit : option Z)
  : Session (list Todo.t) :=
  match Query_le 100 1000 limit with
  | None => raise HTTP_422_UNPROCESSABLE
  | Some limit =>
      let statement := Sql.select_Todo in
      let statement :=
        if Py.truthy q
        then Sql.where_ statement
               (fun row => Sql.ilike (Todo.title row) ("%" ++ the q ++ "%")%string)
        else statement in
      let statement :=
        if Py.truthy tag
        then Sql.where_ statement
               (fun row => Sql.jsonb_contains (Todo.tags row) (the tag))
        else statement in
      let statement :=
        if Py.truthy status
        then Sql.where_ statement
               (fun row => Sql.eq_str (Todo.status row) (the status))
        else statement in
      let statement := Sql.limit statement limit in
      session_exec statement
  end.

(** The conjunction of the criteria that [list_todos] has added when it runs
    the statement, for reasoning about its result. *)
Definition criteria (q tag status : option string) (row : Todo.t) : bool :=
  (if Py.truthy q
   then Sql.ilike (Todo.title row) ("%" ++ the q ++ "%")%string else true)
  && (if Py.truthy tag
      then Sql.jsonb_contains (Todo.tags row) (the tag) else true)
  && (if Py.truthy status
      then Sql.eq_str (Todo.status row) (the status) else true).

Definition get_todo (item_id : UUID) : Session Todo.t :=
  todo <- session_get item_id ;;
  match todo with
  | None => raise HTTP_404_NOT_FOUND
  | Some todo => ret todo
  end.

Definition update_todo (now : datetime) (item_id : UUID) (patch : TodoUpdate.t)
  : Session Todo.t :=
  todo <- session_get item_id ;;
  match todo with
  | None => raise HTTP_404_NOT_FOUND
  | Some todo =>
      let data := TodoUpdate.model_dump_exclude_unset patch in
      let todo := fold_left setattr data todo in
      let todo := set_updated_at todo now in
      _ <- session_add_dirty todo ;;
      session_refresh todo
  end.

Definition delete_todo (item_id : UUID) : Session unit :=
  todo <- session_get item_id ;;
  match todo with
  | None => raise HTTP_404_NOT_FOUND
  | Some todo => session_delete todo
  end.

(** The two routes with a JSON body: the body is validated against the
    schema of the handler's parameter before the handler runs. *)
Definition POST_todos (new_id : UUID) (now : datetime) (body : CreateBody.t)
  : Session Todo.t :=
  match TodoCreate.validate body with
  | None => raise HTTP_422_UNPROCESSABLE
  | Some item => create_todo new_id now item
  end.

Definition PATCH_todo (now : datetime) (item_id : UUID) (body : TodoUpdate.t)
  : Session Todo.t :=
  match TodoUpdate.validate body with
  | None => raise HTTP_422_UNPROCESSABLE
  | Some patch => update_todo now item_id patch
  end.

End Api.

(** ** The response schema and the routes *)

(** [TodoRead] (app/schemas.py): the fields of [TodoCreate] with their
    constraints, then [id], [created_at], [updated_at] and [status]. *)
Module TodoRead.

Record t : Type := mk {
  title : string;
  description : option string;
  due_at : option datetime;
  estimated_minutes : option Z;
  priority : option Z;
  tags : option (list string);
  id : UUID;
  created_at : datetime;
  updated_at : option datetime;
  status : option string
}.

(** An [Optional[int]] attribute against its constraint: [None] passes. *)
Definition value_ok (constraint : Z -> bool) (v : option Z) : bool :=
  match v with
  | Some x => constraint x
  | None => true
  end.

(** Validation of a returned [Todo] against the response model, read from
    its attributes; [None] is a validation error. *)
Definition validate (todo : Todo.t) : option t :=
  match Todo.title todo with
  | Some ti =>
      if value_ok (ge 0) (Todo.estimated_minutes todo)
         && value_ok (ge_le 1 5) (Todo.priority todo)
      then Some (mk ti (Todo.description todo) (Todo.due_at todo)
                    (Todo.estimated_minutes todo) (Todo.priority todo)
                    (Todo.tags todo) (Todo.id todo) (Todo.created_at todo)
                    (Todo.updated_at todo) (Todo.status todo))
      else None
  | None => None
  end.

End TodoRead.

(** The routes of [router] (app/api/todos.py): each one runs the
    [Security(get_api_key)] dependency first, then the handler with its
    validated parameters, then validates what the handler returned against
    its [response_model].  A response that does not validate is a server
    error; the handler has committed by then. *)
Module Routes.

Section Router.

Variable API_KEY : string.

(** [dependencies=[Security(get_api_key)]]: an exception of the dependency
    ends the request before the endpoint runs. *)
Definition secured {A} (header : option string) (endpoint : Session A) : Session A :=
  match Security.get_api_key API_KEY header with
  | Ok _ => endpoint
  | Raise status_code => raise status_code
  end.

(** [response_model=TodoRead]. *)
Definition response_model (todo : Todo.t) : Session TodoRead.t :=
  match TodoRead.validate todo with
  | Some r => ret r
  | None => raise HTTP_500_INTERNAL
  end.

(** [response_model=List[TodoRead]]. *)
Fixpoint response_model_list (todos : list Todo.t) : Session (list TodoRead.t) :=
  match todos with
  | [] => ret []
  | todo :: rest =>
      r <- response_model todo ;;
      rs <- response_model_list rest ;;
      ret (r :: rs)
  end.

(** [POST /todos/]. *)
Definition post_todos (header : option string) (new_id : UUID) (now : datetime)
  (body : CreateBody.t) : Session TodoRead.t :=
  secured header (todo <- Api.POST_todos new_id now body ;; response_model todo).

(** [GET /todos/]. *)
Definition get_todos (header : option string) (q tag status : option string)
  (limit : option Z) : Session (list TodoRead.t) :=
  secured header
    (todos <- Api.list_todos q tag status limit ;; response_model_list todos).

(** [GET /todos/{item_id}]. *)
Definition get_todo (header : option string) (item_id : UUID) : Session TodoRead.t :=
  secured header (todo <- Api.get_todo item_id ;; response_model todo).

(** [PATCH /todos/{item_id}]. *)
Definition patch_todo (header : option string) (now : datetime) (item_id : UUID)
  (body : TodoUpdate.t) : Session TodoRead.t :=
  secured header (todo <- Api.PATCH_todo now item_id body ;; response_model todo).

(** [DELETE /todos/{item_id}]: status 204, no response model. *)
Definition delete_todo (header : option string) (item_id : UUID) : Session unit :=
  secured header (Api.delete_todo item_id).

End Router.

End Routes.

(** ** app/db.py *)

Module Db.

(** The [connect_args] computed when the module is loaded.  [urlparse] and
    [parse_qs] are taken as run: [parsed] is [None] when parsing raised,
    otherwise the host name of the URL ([None] when it has none) and the
    keys of its query string. *)
Definition connect_args (parsed : option (option string * list string))
  : list (string * string) :=
  match parsed with
  | None => []
  | Some (hostname, qs) =>
      if Py.truthy hostname && Py.endswith (Api.the hostname) "supabase.co"
      then
        if negb (existsb (String.eqb "sslmode") qs)
        then [("sslmode", "require")]
        else []
      else []
  end.

End Db.

(** ** The words of the specification *)

Module Spec.







(** A filter as the handler reads it: the empty string counts as absent. *)
Definition effective (f : option string) : option string :=
  if Py.truthy f then f else None.

(** The cap of a list request: the limit, 100 when it is not given. *)
Definition cap (limit : option Z) : Z :=
  match limit with Some v => v | None => 100 end.


(** The rows of a table obey the declared constraints: no null title and no
    two rows with one primary key. *)
Definition well_formed (db : Sql.table) : Prop :=
  Forall (fun row => Sql.not_null row = true) db /\ NoDup (map Todo.id db).

(** What a partial update leaves in a field: the value of a present key
    ([null] clears), the prior value when the key is missing. *)
Definition merge {A} (f : field A) (old : option A) : option A :=
  match f with
  | Unset => old
  | Null => None
  | Value a => Some a
  | IllTyped => old
  end.

(** The record [new] is [old] with exactly the keys of [patch] replaced and
    [updated_at] set to [now]. *)
Definition merged (patch : TodoUpdate.t) (now : datetime) (old new : Todo.t) : Prop :=
  Todo.id new = Todo.id old /\
  Todo.title new = merge (TodoUpdate.title patch) (Todo.title old) /\
  Todo.description new = merge (TodoUpdate.description patch) (Todo.description old) /\
  Todo.due_at new = merge (TodoUpdate.due_at patch) (Todo.due_at old) /\
  Todo.estimated_minutes new
    = merge (TodoUpdate.estimated_minutes patch) (Todo.estimated_minutes old) /\
  Todo.status new = merge (TodoUpdate.status patch) (Todo.status old) /\
  Todo.priority new = merge (TodoUpdate.priority patch) (Todo.priority old) /\
  Todo.tags new = merge (TodoUpdate.tags patch) (Todo.tags old) /\
  Todo.created_at new = Todo.created_at old /\
  Todo.updated_at new = Some now.

(** An explicit [null] clears the field, a missing key keeps it. *)
Definition null_clears {A} (f : field A) (old new : option A) : Prop :=
  (f = Null -> new = None) /\ (f = Unset -> new = old).

(** A field of a created record carries what the caller supplied for it. *)
Definition carries {A} (f : field A) (v : option A) : Prop :=
  match f with
  | Unset => True
  | Null => v = None
  | Value a => v = Some a
  | IllTyped => True
  end.

(** The created record is equal to the body on every caller-supplied field. *)
Definition echoes (body : CreateBody.t) (todo : Todo.t) : Prop :=
  carries (CreateBody.title body) (Todo.title todo) /\
  carries (CreateBody.description body) (Todo.description todo) /\
  carries (CreateBody.due_at body) (Todo.due_at todo) /\
  carries (CreateBody.estimated_minutes body) (Todo.estimated_minutes todo) /\
  carries (CreateBody.priority body) (Todo.priority todo) /\
  carries (CreateBody.tags body) (Todo.tags todo).

(** *** The sentences of the specification, as they are written *)


(** A create whose title is missing or empty fails with a client error and
    persists nothing. *)
Definition blank_title_is_rejected (new_id : UUID) (now : datetime)
  (body : CreateBody.t) (db : Sql.table) : Prop :=
  CreateBody.title body = Unset \/ CreateBody.title body = Value "" ->
  Api.POST_todos new_id now body db = (Raise HTTP_422_UNPROCESSABLE, db).

(** Every partial update of an existing record merges the payload, refreshes
    [updated_at] and returns the updated record. *)
Definition every_patch_is_merged (now : datetime) (item_id : UUID)
  (patch : TodoUpdate.t) (db : Sql.table) : Prop :=
  forall old, Sql.get item_id db = Some old ->
  exists new db', Api.update_todo now item_id patch db = (Ok new, db')
                  /\ Sql.get item_id db' = Some new
                  /\ merged patch now old new.

(** An explicit [null] clears any updatable field, [title] included. *)
Definition null_clears_every_field (now : datetime) (item_id : UUID)
  (patch : TodoUpdate.t) (db : Sql.table) : Prop :=
  forall old, Sql.get item_id db = Some old ->
  exists new, Sql.get item_id (snd (Api.PATCH_todo now item_id patch db)) = Some new
    /\ null_clears (TodoUpdate.title patch) (Todo.title old) (Todo.title new)
    /\ null_clears (TodoUpdate.description patch) (Todo.description old) (Todo.description new)
    /\ null_clears (TodoUpdate.due_at patch) (Todo.due_at old) (Todo.due_at new)
    /\ null_clears (TodoUpdate.estimated_minutes patch)
         (Todo.estimated_minutes old) (Todo.estimated_minutes new)
    /\ null_clears (TodoUpdate.status patch) (Todo.status old) (Todo.status new)
    /\ null_clears (TodoUpdate.priority patch) (Todo.priority old) (Todo.priority new)
    /\ null_clears (TodoUpdate.tags patch) (Todo.tags old) (Todo.tags new).

(** 401 exactly when the secret is absent, 403 exactly when it is present
    and, stripped, differs from the configured one, authorized otherwise. *)
Definition validator_contract (API_KEY : string) (api_key : option string) : Prop :=
  (Security.get_api_key API_KEY api_key = Raise HTTP_401_UNAUTHORIZED
   <-> api_key = None) /\
  (Security.get_api_key API_KEY api_key = Raise HTTP_403_FORBIDDEN
   <-> exists k, api_key = Some k /\ Py.strip k <> API_KEY) /\
  ((exists k, api_key = Some k /\ Py.strip k = API_KEY)
   -> exists k, Security.get_api_key API_KEY api_key = Ok k).


(** *** Predicates for the properties of the routes *)

(** Every row passes the response schema. *)
Definition schema_valid (db : Sql.table) : Prop :=
  Forall (fun row => TodoRead.validate row <> None) db.


(** The header carries the configured secret, blanks around it aside. *)
Definition bears_secret (API_KEY : string) (header : option string) : Prop :=
  exists k, header = Some k /\ Py.strip k = API_KEY.

(** A text made of [%] only. *)
Fixpoint all_percent (q : string) : bool :=
  match q with
  | EmptyString => true
  | String c q' => Ascii.eqb c "%" && all_percent q'
  end.

(** The numeric fields of a body are in range: [estimated_minutes] is not
    negative, [priority] is from 1 to 5. *)
Definition in_range (estimated_minutes priority : field Z) : Prop :=
  (forall v, estimated_minutes = Value v -> 0 <= v) /\
  (forall v, priority = Value v -> 1 <= v <= 5).

(** A patch without any key. *)
Definition empty_patch : TodoUpdate.t :=
  TodoUpdate.mk Unset Unset Unset Unset Unset Unset Unset.

(** *** What the backend stores *)

(** The value of a key, when there is one, passes [ok]. *)
Definition accepted {A} (ok : A -> bool) (f : field A) : Prop :=
  forall a, f = Value a -> ok a = true.

(** The values of a create body are ones that the backend stores: no NUL
    character in a text, the tags included, and numbers within 32 bits. *)
Definition storable_body (body : CreateBody.t) : Prop :=
  accepted Sql.text_ok (CreateBody.title body) /\
  accepted Sql.text_ok (CreateBody.description body) /\
  accepted Sql.int4 (CreateBody.estimated_minutes body) /\
  accepted Sql.int4 (CreateBody.priority body) /\
  accepted (forallb Sql.text_ok) (CreateBody.tags body).

(** The same for the values of a patch. *)
Definition storable_patch (patch : TodoUpdate.t) : Prop :=
  accepted Sql.text_ok (TodoUpdate.title patch) /\
  accepted Sql.text_ok (TodoUpdate.description patch) /\
  accepted Sql.int4 (TodoUpdate.estimated_minutes patch) /\
  accepted Sql.text_ok (TodoUpdate.status patch) /\
  accepted Sql.int4 (TodoUpdate.priority patch) /\
  accepted (forallb Sql.text_ok) (TodoUpdate.tags patch).

(** The priority of a created record against the body: the value given,
    and the default 3 for [null]. *)
Definition stored_priority (f : field Z) (v : option Z) : Prop :=
  match f with
  | Value a => v = Some a
  | Null => v = Some 3
  | Unset => True
  | IllTyped => True
  end.

(** The created record against the body, as the backend stores it. *)
Definition echoes_stored (body : CreateBody.t) (todo : Todo.t) : Prop :=
  carries (CreateBody.title body) (Todo.title todo) /\
  carries (CreateBody.description body) (Todo.description todo) /\
  carries (CreateBody.due_at body) (Todo.due_at todo) /\
  carries (CreateBody.estimated_minutes body) (Todo.estimated_minutes todo) /\
  stored_priority (CreateBody.priority body) (Todo.priority todo) /\
  carries (CreateBody.tags body) (Todo.tags todo).

(** Every create that validates can be fetched back, equal to the body on
    every field that the caller supplied. *)
Definition create_round_trips (new_id : UUID) (now : datetime)
  (body : CreateBody.t) (db : Sql.table) : Prop :=
  TodoCreate.validate body <> None ->
  Sql.get new_id db = None ->
  exists todo db',
    Api.POST_todos new_id now body db = (Ok todo, db')
    /\ Api.get_todo (Todo.id todo) db' = (Ok todo, db')
    /\ echoes body todo
    /\ Todo.created_at todo = now
    /\ Todo.updated_at todo = None.


End Spec.

(** ** Sample data: the two items of the specification's filter example *)

Module Sample.

Definition milk : Todo.t :=
  Todo.mk 1%N (Some "Buy milk") None None None (Some "todo") (Some 3)
          (Some ["home"]) 1700000000 None.

Definition bread : Todo.t :=
  Todo.mk 2%N (Some "Buy bread") None None None (Some "done") (Some 3)
          (Some ["work"]) 1700000060 None.

Definition db : Sql.table := [milk; bread].

(** A create body that only gives a title. *)
Definition titled (title : field string) : CreateBody.t :=
  CreateBody.mk title Unset Unset Unset Unset Unset.

(** A create body with every key present. *)
Definition eggs : CreateBody.t :=
  CreateBody.mk (Value "Buy eggs") (Value "a dozen") Null (Value 15)
                (Value 2) (Value ["home"; "food"]).

(** PATCH bodies: only [status]; [title] set to [null]; [description] and
    [priority] set to [null] with [tags] replaced. *)
Definition only_status : TodoUpdate.t :=
  TodoUpdate.mk Unset Unset Unset Unset (Value "done") Unset Unset.

Definition null_title : TodoUpdate.t :=
  TodoUpdate.mk Null Unset Unset Unset Unset Unset Unset.

Definition clearing : TodoUpdate.t :=
  TodoUpdate.mk Unset Null Unset Unset Unset Null (Value ["errand"]).

(** Create bodies that validate: a [null] priority; an [estimated_minutes]
    of 2^31. *)
Definition null_priority : CreateBody.t :=
  CreateBody.mk (Value "Call home") Unset Unset Unset Null Unset.

Definition too_long : CreateBody.t :=
  CreateBody.mk (Value "Read it all") Unset Unset (Value 2147483648) Unset Unset.

End Sample.

(** * Properties *)

(** ** The credential validator *)

Section ValidatorFacts.

Variable API_KEY : string.

Lemma truthy_false (x : option string) :
  Py.truthy x = false <-> x = None \/ x = Some "".
Proof.
  destruct x as [[|c s]|]; simpl; split; intro H; auto; try discriminate.
  destruct H as [H|H]; discriminate.
Qed.

(** The three outcomes of the validator on a secret that reaches the
    comparison. *)
Lemma get_api_key_compare (k : string) :
  k <> "" ->
  Security.get_api_key API_KEY (Some k) =
    match Py.compare_digest (Py.strip k) API_KEY with
    | None => Raise HTTP_500_INTERNAL
    | Some false => Raise HTTP_403_FORBIDDEN
    | Some true => Ok (Py.strip k)
    end.
Proof.
  destruct k as [|c k]; [congruence|reflexivity].
Qed.

Lemma compare_digest_ascii (a b : string) :
  Py.isascii a = true -> Py.isascii b = true ->
  Py.compare_digest a b = Some (String.eqb a b).
Proof.
  intros Ha Hb. unfold Py.compare_digest. now rewrite Ha, Hb.
Qed.

(** The validator never answers 401 once the secret is not blank, whatever
    the characters. *)
Lemma get_api_key_401 (api_key : option string) :
  Security.get_api_key API_KEY api_key = Raise HTTP_401_UNAUTHORIZED
  <-> api_key = None \/ api_key = Some "".
Proof.
  rewrite <- truthy_false.
  destruct api_key as [[|c k]|]; simpl; split; intro H;
    try reflexivity; try discriminate.
  unfold Security.get_api_key in H; simpl in H.
  destruct (Py.compare_digest _ _) as [[|]|] in H; discriminate.
Qed.

Example strip_inner_space_kept : Py.strip "  a key  " = "a key".
Proof. reflexivity. Qed.

Lemma lstrip_head (s : string) (c : ascii) (s' : string) :
  Py.lstrip s = String c s' -> Py.isspace c = false.
Proof.
  induction s as [|x s IH]; simpl; [discriminate|].
  destruct (Py.isspace x) eqn:E; [exact IH|].
  intros H. injection H as <- _. exact E.
Qed.

(** Stripping leaves no leading blank. *)
Lemma strip_head (s : string) (c : ascii) (s' : string) :
  Py.strip s = String c s' -> Py.isspace c = false.
Proof.
  unfold Py.strip. destruct (Py.lstrip s) as [|x t] eqn:E; [discriminate|].
  apply lstrip_head in E. simpl.
  destruct (Py.rstrip t).
  - rewrite E. intros H. injection H as <- _. exact E.
  - intros H. injection H as <- _. exact E.
Qed.

(** C5 (amended).  The validator answers 401 exactly when the secret is
    absent or the empty string.  When the configured secret and the stripped
    presented secret are ASCII, it answers 403 exactly when a non-empty
    secret is presented whose stripped form differs from the configured one,
    and authorizes (returning the stripped secret) exactly when the stripped
    form is the configured secret. *)
Theorem get_api_key_contract (api_key : option string) :
  Py.isascii API_KEY = true ->
  (forall k, api_key = Some k -> Py.isascii (Py.strip k) = true) ->
  (Security.get_api_key API_KEY api_key = Raise HTTP_401_UNAUTHORIZED
   <-> api_key = None \/ api_key = Some "") /\
  (Security.get_api_key API_KEY api_key = Raise HTTP_403_FORBIDDEN
   <-> exists k, api_key = Some k /\ k <> "" /\ Py.strip k <> API_KEY) /\
  (forall authorized,
     Security.get_api_key API_KEY api_key = Ok authorized
     <-> exists k, api_key = Some k /\ k <> "" /\ Py.strip k = API_KEY
                   /\ authorized = API_KEY).
Proof.
  intros Hcfg Hkey. split; [apply get_api_key_401|].
  destruct api_key as [k|].
  - destruct (string_dec k "") as [->|Hne].
    + split; [|intro a]; (split; [discriminate|]);
        intros (k & Hk & Hne & _); injection Hk as <-; congruence.
    + rewrite (get_api_key_compare k Hne).
      rewrite (compare_digest_ascii _ _ (Hkey k eq_refl) Hcfg).
      destruct (String.eqb_spec (Py.strip k) API_KEY) as [Heq|Hdiff].
      * split; [|intro a]; split.
        -- discriminate.
        -- intros (k' & Hk & _ & Hd). injection Hk as <-. contradiction.
        -- intros H. injection H as <-. exists k. repeat split; auto.
        -- intros (k' & Hk & _ & _ & ->). injection Hk as <-. now rewrite Heq.
      * split; [|intro a]; split.
        -- intros _. exists k. repeat split; auto.
        -- reflexivity.
        -- discriminate.
        -- intros (k' & Hk & _ & He & _). injection Hk as <-. contradiction.
  - split; [|intro a]; (split; [discriminate|]);
      intros (k & Hk & _); discriminate.
Qed.

End ValidatorFacts.

(** The contract on the secret ["secret"]: accepted with blanks around it,
    refused with another case. *)
Lemma get_api_key_contract_witness :
  Security.get_api_key "secret" (Some "  secret ") = Ok "secret" /\
  Security.get_api_key "secret" (Some " Secret") = Raise HTTP_403_FORBIDDEN.
Proof.
  split.
  - destruct (get_api_key_contract "secret" (Some "  secret ")) as (_ & _ & Hok).
    + reflexivity.
    + intros k H. injection H as <-. reflexivity.
    + apply Hok. exists "  secret ". repeat split. discriminate.
  - destruct (get_api_key_contract "secret" (Some " Secret")) as (_ & H403 & _).
    + reflexivity.
    + intros k H. injection H as <-. reflexivity.
    + apply H403. exists " Secret". repeat split; discriminate.
Defined.

(** C5 (as written) fails on a secret that is present but empty: the
    validator answers 401 although the secret is not absent, and does not
    answer 403 although the secret differs from the configured one.  It
    fails as well on a secret with a character outside ASCII (here the one
    character of code 233): the secret is present and differs, and the
    answer is not 403. *)
Lemma validator_contract_fails :
  ~ Spec.validator_contract "secret" (Some "") /\
  ~ Spec.validator_contract "secret" (Some (String (ascii_of_nat 233) "")).
Proof.
  split.
  - intros [[H401 _] _]. specialize (H401 eq_refl). discriminate.
  - intros [_ [[_ H403] _]].
    assert (H : Security.get_api_key "secret" (Some (String (ascii_of_nat 233) ""))
                = Raise HTTP_403_FORBIDDEN).
    { apply H403. eexists. split; [reflexivity|]. discriminate. }
    discriminate.
Qed.

(** A presented secret with a character outside ASCII makes the comparison
    raise: the request ends with status 500, neither 401 nor 403. *)
Example get_api_key_non_ascii :
  Security.get_api_key "secret" (Some (String (ascii_of_nat 233) ""))
  = Raise HTTP_500_INTERNAL.
Proof. reflexivity. Qed.

(** ** Tables *)

Section TableFacts.

Implicit Types (db : Sql.table) (row : Todo.t) (item_id : UUID).

Lemma has_id_true item_id row :
  Sql.has_id item_id row = true <-> Todo.id row = item_id.
Proof. unfold Sql.has_id. apply N.eqb_eq. Qed.

Lemma get_Some item_id db row :
  Sql.get item_id db = Some row -> In row db /\ Todo.id row = item_id.
Proof.
  intros H. apply find_some in H. now rewrite has_id_true in H.
Qed.

Lemma get_None item_id db :
  Sql.get item_id db = None <-> ~ In item_id (map Todo.id db).
Proof.
  unfold Sql.get. induction db as [|r db IH]; simpl.
  - tauto.
  - destruct (Sql.has_id item_id r) eqn:E.
    + apply has_id_true in E. split; [discriminate|]. intros H. exfalso. auto.
    + rewrite IH. split.
      * intros H [Hr|Hin]; [|auto].
        apply has_id_true in Hr. congruence.
      * intros H Hin. auto.
Qed.

Lemma existsb_has_id item_id db :
  existsb (Sql.has_id item_id) db = false <-> Sql.get item_id db = None.
Proof.
  unfold Sql.get. induction db as [|r db IH]; simpl; [tauto|].
  destruct (Sql.has_id item_id r); simpl; [split; discriminate|exact IH].
Qed.

Lemma get_app item_id db1 db2 :
  Sql.get item_id (db1 ++ db2) =
    match Sql.get item_id db1 with
    | Some row => Some row
    | None => Sql.get item_id db2
    end.
Proof.
  unfold Sql.get. induction db1 as [|r db1 IH]; simpl; [reflexivity|].
  now destruct (Sql.has_id item_id r).
Qed.

Lemma has_id_false item_id row :
  Sql.has_id item_id row = false <-> Todo.id row <> item_id.
Proof. unfold Sql.has_id. apply N.eqb_neq. Qed.

Lemma get_delete item_id other db :
  Sql.get other (Sql.delete item_id db) =
    if N.eqb other item_id then None else Sql.get other db.
Proof.
  unfold Sql.get, Sql.delete. induction db as [|r db IH]; simpl.
  - now destruct (N.eqb other item_id).
  - destruct (Sql.has_id item_id r) eqn:E; simpl; rewrite IH.
    + apply has_id_true in E.
      destruct (N.eqb_spec other item_id) as [->|D]; [reflexivity|].
      assert (F : Sql.has_id other r = false) by (apply has_id_false; congruence).
      now rewrite F.
    + apply has_id_false in E.
      destruct (Sql.has_id other r) eqn:F; [|reflexivity].
      apply has_id_true in F.
      destruct (N.eqb_spec other item_id); congruence.
Qed.

(** An UPDATE that is accepted found its row and wrote the new version
    behind the other rows. *)
Lemma update_shape row db db' :
  Sql.update row db = Some db' ->
  (exists old, Sql.get (Todo.id row) db = Some old)
  /\ db' = Sql.delete (Todo.id row) db ++ [row].
Proof.
  unfold Sql.update. destruct (Sql.get (Todo.id row) db) as [old|]; [|discriminate].
  match goal with |- (if ?c then _ else _) = _ -> _ => destruct c end;
    [|discriminate].
  intros H. injection H as <-. split; [now exists old|reflexivity].
Qed.

(** The row that an UPDATE leaves under each primary key. *)
Lemma get_update row other db db' :
  Sql.update row db = Some db' ->
  Sql.get other db' =
    if N.eqb other (Todo.id row)
    then match Sql.get other db with Some _ => Some row | None => None end
    else Sql.get other db.
Proof.
  intros H. destruct (update_shape row db db' H) as [[old Hold] ->].
  rewrite get_app, get_delete.
  destruct (N.eqb_spec other (Todo.id row)) as [->|D].
  - rewrite Hold. unfold Sql.get. simpl.
    replace (Sql.has_id (Todo.id row) row) with true; [reflexivity|].
    symmetry. now apply has_id_true.
  - destruct (Sql.get other db) as [r|]; [reflexivity|].
    unfold Sql.get. simpl.
    replace (Sql.has_id other row) with false; [reflexivity|].
    symmetry. apply has_id_false. congruence.
Qed.

End TableFacts.

(** ** The handlers *)

Section HandlerFacts.

Implicit Types (db : Sql.table) (row : Todo.t) (item_id : UUID).

Lemma get_todo_run item_id db :
  Api.get_todo item_id db =
    match Sql.get item_id db with
    | Some row => (Ok row, db)
    | None => (Raise HTTP_404_NOT_FOUND, db)
    end.
Proof.
  unfold Api.get_todo, bind, session_get.
  now destruct (Sql.get item_id db).
Qed.

Lemma delete_todo_run item_id db :
  Api.delete_todo item_id db =
    match Sql.get item_id db with
    | Some _ => (Ok tt, Sql.delete item_id db)
    | None => (Raise HTTP_404_NOT_FOUND, db)
    end.
Proof.
  unfold Api.delete_todo, bind, session_get, session_delete.
  destruct (Sql.get item_id db) as [row|] eqn:E; [|reflexivity].
  apply get_Some in E. destruct E as [_ ->]. reflexivity.
Qed.

Lemma update_todo_missing now item_id patch db :
  Sql.get item_id db = None ->
  Api.update_todo now item_id patch db = (Raise HTTP_404_NOT_FOUND, db).
Proof.
  intros H. unfold Api.update_todo, bind, session_get. now rewrite H.
Qed.

(** The statement that [list_todos] runs selects by [Api.criteria]. *)
Lemma list_todos_statement q tag status limit db :
  let statement := Sql.select_Todo in
  let statement :=
    if Py.truthy q
    then Sql.where_ statement
           (fun row => Sql.ilike (Todo.title row) ("%" ++ Api.the q ++ "%")%string)
    else statement in
  let statement :=
    if Py.truthy tag
    then Sql.where_ statement
           (fun row => Sql.jsonb_contains (Todo.tags row) (Api.the tag))
    else statement in
  let statement :=
    if Py.truthy status
    then Sql.where_ statement
           (fun row => Sql.eq_str (Todo.status row) (Api.the status))
    else statement in
  filter (Sql.satisfies (Sql.limit statement limit)) db
  = filter (Api.criteria q tag status) db.
Proof.
  cbv zeta. apply filter_ext. intros row.
  unfold Api.criteria, Sql.satisfies.
  destruct (Py.truthy q), (Py.truthy tag), (Py.truthy status); simpl;
    rewrite ?andb_true_r, ?andb_assoc; reflexivity.
Qed.

Lemma list_todos_run q tag status limit lim db :
  Api.Query_le 100 1000 limit = Some lim ->
  0 <= lim ->
  Api.list_todos q tag status limit db =
    (Ok (firstn (Z.to_nat lim) (filter (Api.criteria q tag status) db)), db).
Proof.
  intros HQ Hlim. unfold Api.list_todos. rewrite HQ.
  unfold session_exec, Sql.exec.
  rewrite (list_todos_statement q tag status lim db).
  destruct (Py.truthy q), (Py.truthy tag), (Py.truthy status); simpl;
    (destruct (Z.ltb_spec lim 0); [lia|reflexivity]).
Qed.


End HandlerFacts.

(** ** The limit of a list request *)




(** ** Empty-string filters *)

(** C10.  A filter parameter given as the empty string gives the same
    response as the request without that parameter, for each of the three
    filters and for all of them at once. *)
Theorem list_todos_empty_filter (q tag status : option string)
  (limit : option Z) (db : Sql.table) :
  Api.list_todos (Some "") tag status limit db
  = Api.list_todos None tag status limit db /\
  Api.list_todos q (Some "") status limit db
  = Api.list_todos q None status limit db /\
  Api.list_todos q tag (Some "") limit db
  = Api.list_todos q tag None limit db /\
  Api.list_todos q tag status limit db
  = Api.list_todos (Spec.effective q) (Spec.effective tag)
                   (Spec.effective status) limit db.
Proof.
  split; [reflexivity|split; [reflexivity|split; [reflexivity|]]].
  destruct q as [[|c1 q]|], tag as [[|c2 tag]|], status as [[|c3 status]|];
    reflexivity.
Qed.

(** ** Missing identifiers *)

(** C8.  On an identifier that is not in the table, get, update (the handler
    on any patch, the route on any body that validates) and delete each
    answer 404 and leave the table as it was; after a delete that succeeded,
    getting the item answers 404 and deleting it again answers 404. *)
Theorem missing_id_is_not_found (item_id : UUID) (db : Sql.table) :
  (Sql.get item_id db = None ->
     Api.get_todo item_id db = (Raise HTTP_404_NOT_FOUND, db) /\
     Api.delete_todo item_id db = (Raise HTTP_404_NOT_FOUND, db) /\
     (forall now patch,
        Api.update_todo now item_id patch db = (Raise HTTP_404_NOT_FOUND, db)) /\
     (forall now body patch,
        TodoUpdate.validate body = Some patch ->
        Api.PATCH_todo now item_id body db = (Raise HTTP_404_NOT_FOUND, db))) /\
  (forall db',
     Api.delete_todo item_id db = (Ok tt, db') ->
     Api.get_todo item_id db' = (Raise HTTP_404_NOT_FOUND, db') /\
     Api.delete_todo item_id db' = (Raise HTTP_404_NOT_FOUND, db')).
Proof.
  split.
  - intros Hmiss. split; [|split; [|split]].
    + rewrite get_todo_run. now rewrite Hmiss.
    + rewrite delete_todo_run. now rewrite Hmiss.
    + intros now patch. now apply update_todo_missing.
    + intros now body patch Hv. unfold Api.PATCH_todo. rewrite Hv.
      now apply update_todo_missing.
  - intros db' Hdel. rewrite delete_todo_run in Hdel.
    destruct (Sql.get item_id db) as [row|]; [|discriminate].
    injection Hdel as <-.
    assert (Hgone : Sql.get item_id (Sql.delete item_id db) = None).
    { rewrite get_delete. now rewrite N.eqb_refl. }
    rewrite get_todo_run, delete_todo_run. now rewrite Hgone.
Qed.

(** Identifier 7 is not in the sample table; identifier 1 is gone once
    deleted. *)
Lemma missing_id_is_not_found_witness :
  (Api.get_todo 7%N Sample.db = (Raise HTTP_404_NOT_FOUND, Sample.db) /\
   Api.delete_todo 7%N Sample.db = (Raise HTTP_404_NOT_FOUND, Sample.db) /\
   Api.update_todo 1700000100 7%N Sample.only_status Sample.db
   = (Raise HTTP_404_NOT_FOUND, Sample.db)) /\
  (Api.get_todo 1%N [Sample.bread] = (Raise HTTP_404_NOT_FOUND, [Sample.bread]) /\
   Api.delete_todo 1%N [Sample.bread] = (Raise HTTP_404_NOT_FOUND, [Sample.bread])).
Proof.
  split.
  - destruct (proj1 (missing_id_is_not_found 7%N Sample.db) eq_refl)
      as (Hget & Hdel & Hupd & _).
    split; [exact Hget|split; [exact Hdel|apply Hupd]].
  - apply (proj2 (missing_id_is_not_found 1%N Sample.db) [Sample.bread]).
    reflexivity.
Defined.

(** ** Create and update *)

Section MutationFacts.

Implicit Types (db : Sql.table) (row : Todo.t) (item_id : UUID).

Lemma storable_with_defaults row :
  Sql.storable (Sql.with_defaults row) = Sql.storable row.
Proof.
  destruct row as [i ti de du es st pr ta cr up]. unfold Sql.storable. simpl.
  now destruct st, pr.
Qed.

(** What [create_todo] answers, by the outcome of its INSERT. *)
Lemma create_todo_insert new_id now item db :
  Api.create_todo new_id now item db =
    match Sql.insert (Api.new_Todo new_id now item) db with
    | Some db' => (Ok (Sql.with_defaults (Api.new_Todo new_id now item)), db')
    | None => (Raise HTTP_500_INTERNAL, db)
    end.
Proof.
  unfold Api.create_todo, bind, session_add_new.
  destruct (Sql.insert (Api.new_Todo new_id now item) db) as [db'|] eqn:Hins;
    [|reflexivity].
  unfold Sql.insert in Hins. cbv zeta in Hins.
  set (todo := Sql.with_defaults (Api.new_Todo new_id now item)) in *.
  destruct (Sql.not_null todo && Sql.storable todo); [|discriminate].
  change (Todo.id todo) with new_id in Hins.
  destruct (existsb (Sql.has_id new_id) db) eqn:E; [discriminate|].
  simpl in Hins. injection Hins as <-.
  apply existsb_has_id in E.
  unfold session_refresh. change (Todo.id (Api.new_Todo new_id now item)) with new_id.
  rewrite get_app, E. unfold Sql.get. simpl.
  replace (Sql.has_id new_id todo) with true; [reflexivity|].
  symmetry. now apply has_id_true.
Qed.

Lemma create_todo_run new_id now item db :
  Sql.get new_id db = None ->
  Sql.storable (Api.new_Todo new_id now item) = true ->
  let todo := Sql.with_defaults (Api.new_Todo new_id now item) in
  Api.create_todo new_id now item db = (Ok todo, db ++ [todo]).
Proof.
  intros Hfresh Hst todo. rewrite create_todo_insert.
  unfold Sql.insert. cbv zeta. fold todo.
  change (Sql.not_null todo) with true.
  unfold todo at 1. rewrite storable_with_defaults, Hst.
  change (Todo.id todo) with new_id.
  now rewrite (proj2 (existsb_has_id new_id db) Hfresh).
Qed.

(** An identifier that is already a primary key makes the INSERT fail. *)
Lemma create_todo_collision new_id now item db row :
  Sql.get new_id db = Some row ->
  Api.create_todo new_id now item db = (Raise HTTP_500_INTERNAL, db).
Proof.
  intros Htaken. rewrite create_todo_insert. unfold Sql.insert. cbv zeta.
  change (Todo.id (Sql.with_defaults (Api.new_Todo new_id now item))) with new_id.
  destruct (existsb (Sql.has_id new_id) db) eqn:E.
  - now rewrite andb_false_r.
  - apply existsb_has_id in E. congruence.
Qed.

(** What validation keeps of each key of a create body. *)
Lemma validate_create_fields (body : CreateBody.t) (item : TodoCreate.t) :
  TodoCreate.validate body = Some item ->
  required_field unconstrained (CreateBody.title body) = Some (TodoCreate.title item)
  /\ optional_field None unconstrained (CreateBody.description body)
     = Some (TodoCreate.description item)
  /\ optional_field None unconstrained (CreateBody.due_at body)
     = Some (TodoCreate.due_at item)
  /\ optional_field None (ge 0) (CreateBody.estimated_minutes body)
     = Some (TodoCreate.estimated_minutes item)
  /\ optional_field (Some 3) (ge_le 1 5) (CreateBody.priority body)
     = Some (TodoCreate.priority item)
  /\ optional_field None unconstrained (CreateBody.tags body)
     = Some (TodoCreate.tags item).
Proof.
  unfold TodoCreate.validate.
  destruct (required_field _ _) as [ti|]; [|discriminate].
  destruct (optional_field None unconstrained (CreateBody.description body))
    as [de|]; [|discriminate].
  destruct (optional_field None unconstrained (CreateBody.due_at body))
    as [du|]; [|discriminate].
  destruct (optional_field None (ge 0) _) as [es|]; [|discriminate].
  destruct (optional_field (Some 3) _ _) as [pr|]; [|discriminate].
  destruct (optional_field None unconstrained (CreateBody.tags body))
    as [ta|]; [|discriminate].
  intros H. injection H as <-. simpl. tauto.
Qed.

Lemma optional_field_carries {A} (default : option A) (constraint : A -> bool)
  (f : field A) (v : option A) :
  optional_field default constraint f = Some v -> Spec.carries f v.
Proof.
  destruct f as [| |a|]; simpl; try tauto.
  - congruence.
  - destruct (constraint a); [congruence|discriminate].
Qed.

Lemma required_field_carries {A} (constraint : A -> bool) (f : field A) (a : A) :
  required_field constraint f = Some a -> Spec.carries f (Some a).
Proof.
  destruct f as [| |x|]; simpl; try discriminate.
  destruct (constraint x); [congruence|discriminate].
Qed.

Lemma optional_field_takes {A} (ok constraint : A -> bool) (default : option A)
  (f : field A) (v : option A) :
  optional_field default constraint f = Some v ->
  Spec.accepted ok f -> Sql.takes ok default = true -> Sql.takes ok v = true.
Proof.
  intros H Hacc Hd. destruct f as [| |a|]; simpl in H; try discriminate.
  - now injection H as <-.
  - now injection H as <-.
  - destruct (constraint a); [|discriminate]. injection H as <-.
    simpl. now apply Hacc.
Qed.

Lemma validate_echoes new_id now body item :
  TodoCreate.validate body = Some item ->
  Spec.echoes body (Api.new_Todo new_id now item).
Proof.
  intros Hv.
  destruct (validate_create_fields body item Hv) as (Hti & Hde & Hdu & Hes & Hpr & Hta).
  unfold Spec.echoes. simpl.
  split; [now apply (required_field_carries unconstrained)|].
  repeat split; eapply optional_field_carries; eassumption.
Qed.

(** The stored record against the body: the column default stands for a
    [null] priority. *)
Lemma validate_echoes_stored new_id now body item :
  TodoCreate.validate body = Some item ->
  Spec.echoes_stored body (Sql.with_defaults (Api.new_Todo new_id now item)).
Proof.
  intros Hv.
  destruct (validate_create_fields body item Hv) as (Hti & Hde & Hdu & Hes & Hpr & Hta).
  unfold Spec.echoes_stored. simpl.
  split; [now apply (required_field_carries unconstrained)|].
  split; [eapply optional_field_carries; eassumption|].
  split; [eapply optional_field_carries; eassumption|].
  split; [eapply optional_field_carries; eassumption|].
  split; [|eapply optional_field_carries; eassumption].
  destruct (CreateBody.priority body) as [| |a|]; simpl in *; try tauto.
  - now injection Hpr as <-.
  - destruct (ge_le 1 5 a); [|discriminate]. now injection Hpr as <-.
Qed.

(** A body that validates and holds storable values gives a storable row. *)
Lemma body_storable new_id now body item :
  TodoCreate.validate body = Some item ->
  Spec.storable_body body ->
  Sql.storable (Api.new_Todo new_id now item) = true.
Proof.
  intros Hv (Sti & Sde & Ses & Spr & _).
  destruct (validate_create_fields body item Hv) as (Hti & Hde & _ & Hes & Hpr & _).
  unfold Sql.storable. simpl.
  assert (Tti : Sql.text_ok (TodoCreate.title item) = true).
  { destruct (CreateBody.title body) as [| |t|]; simpl in Hti; try discriminate.
    injection Hti as <-. now apply Sti. }
  rewrite Tti.
  rewrite (optional_field_takes Sql.text_ok _ _ _ _ Hde Sde eq_refl).
  rewrite (optional_field_takes Sql.int4 _ _ _ _ Hes Ses eq_refl).
  rewrite (optional_field_takes Sql.int4 _ _ _ _ Hpr Spr eq_refl).
  reflexivity.
Qed.

Lemma POST_todos_run new_id now body item db :
  TodoCreate.validate body = Some item ->
  Sql.get new_id db = None ->
  Spec.storable_body body ->
  let todo := Sql.with_defaults (Api.new_Todo new_id now item) in
  Api.POST_todos new_id now body db = (Ok todo, db ++ [todo]).
Proof.
  intros Hv Hfresh Hst. unfold Api.POST_todos. rewrite Hv.
  apply create_todo_run; [exact Hfresh|].
  now apply (body_storable new_id now body item).
Qed.

(** The loop over the dumped items stores each present key and nothing
    else. *)
Lemma setattr_items patch todo :
  fold_left setattr (TodoUpdate.model_dump_exclude_unset patch) todo =
    Todo.mk (Todo.id todo)
      (Spec.merge (TodoUpdate.title patch) (Todo.title todo))
      (Spec.merge (TodoUpdate.description patch) (Todo.description todo))
      (Spec.merge (TodoUpdate.due_at patch) (Todo.due_at todo))
      (Spec.merge (TodoUpdate.estimated_minutes patch) (Todo.estimated_minutes todo))
      (Spec.merge (TodoUpdate.status patch) (Todo.status todo))
      (Spec.merge (TodoUpdate.priority patch) (Todo.priority todo))
      (Spec.merge (TodoUpdate.tags patch) (Todo.tags todo))
      (Todo.created_at todo)
      (Todo.updated_at todo).
Proof.
  destruct patch as [ti de du es st pr ta], todo as [i ti0 de0 du0 es0 st0 pr0 ta0 cr up].
  unfold TodoUpdate.model_dump_exclude_unset. simpl.
  rewrite !fold_left_app.
  destruct ti; simpl; destruct de; simpl; destruct du; simpl;
    destruct es; simpl; destruct st; simpl; destruct pr; simpl;
    destruct ta; reflexivity.
Qed.

(** The object that [update_todo] commits: the loaded row with the dumped
    items stored and [updated_at] refreshed. *)
Lemma update_todo_run now item_id patch db old :
  Sql.get item_id db = Some old ->
  let new := set_updated_at
               (fold_left setattr (TodoUpdate.model_dump_exclude_unset patch) old)
               now in
  Api.update_todo now item_id patch db =
    match Sql.update new db with
    | Some db' => (Ok new, db')
    | None => (Raise HTTP_500_INTERNAL, db)
    end.
Proof.
  intros Hold new.
  unfold Api.update_todo, bind, session_get. rewrite Hold.
  fold new. unfold session_add_dirty.
  destruct (Sql.update new db) as [db'|] eqn:Hup; [|reflexivity].
  unfold session_refresh.
  rewrite (get_update new (Todo.id new) db db' Hup), N.eqb_refl.
  assert (Hid : Todo.id new = item_id).
  { unfold new. rewrite setattr_items.
    destruct (get_Some _ _ _ Hold) as [_ <-]. reflexivity. }
  now rewrite Hid, Hold.
Qed.

Lemma well_formed_row db item_id row :
  Spec.well_formed db -> Sql.get item_id db = Some row ->
  exists title, Todo.title row = Some title.
Proof.
  intros [Hnn _] Hget. apply get_Some in Hget. destruct Hget as [Hin _].
  rewrite Forall_forall in Hnn. specialize (Hnn row Hin).
  unfold Sql.not_null in Hnn. destruct (Todo.title row) as [t|]; [|discriminate].
  now exists t.
Qed.

Lemma same_refl {A} (eqb : A -> A -> bool) (v : option A) :
  (forall a, eqb a a = true) -> Sql.same eqb v v = true.
Proof. intros H. destruct v; simpl; auto. Qed.

Lemma same_eq_string (old new : option string) :
  Sql.same String.eqb old new = true -> old = new.
Proof.
  destruct old as [a|], new as [b|]; simpl; try discriminate; [|reflexivity].
  intros H. apply String.eqb_eq in H. now subst.
Qed.

(** The column of a merged field passes its check as soon as the value of
    the patch does. *)
Lemma set_ok_merge {A} (eqb : A -> A -> bool) (ok : option A -> bool)
  (f : field A) (old : option A) :
  (forall a, eqb a a = true) ->
  (f = Null -> ok None = true) ->
  (forall a, f = Value a -> ok (Some a) = true) ->
  Sql.set_ok eqb ok old (Spec.merge f old) = true.
Proof.
  intros Hrefl Hnull Hval. unfold Sql.set_ok.
  destruct f as [| |a|]; simpl.
  - now rewrite same_refl.
  - rewrite Hnull; [apply orb_true_r|reflexivity].
  - rewrite (Hval a eq_refl). apply orb_true_r.
  - now rewrite same_refl.
Qed.

(** A patch that does not set [title] to [null] and whose values the
    backend stores is committed. *)
Lemma update_todo_ok now item_id patch db old :
  Spec.well_formed db ->
  Sql.get item_id db = Some old ->
  TodoUpdate.title patch <> Null ->
  Spec.storable_patch patch ->
  exists new db',
    Api.update_todo now item_id patch db = (Ok new, db')
    /\ Sql.update new db = Some db'
    /\ Sql.get item_id db' = Some new
    /\ Spec.merged patch now old new.
Proof.
  intros Hwf Hold Hti (Sti & Sde & Ses & Sst & Spr & _).
  rewrite (update_todo_run now item_id patch db old Hold). cbv zeta.
  rewrite setattr_items.
  destruct (get_Some _ _ _ Hold) as [_ Hid].
  match goal with |- context [Sql.update ?r db] => set (new := r) end.
  assert (Hup : Sql.update new db = Some (Sql.delete item_id db ++ [new])).
  { unfold Sql.update. change (Todo.id new) with (Todo.id old).
    rewrite Hid, Hold. unfold new. simpl.
    rewrite (set_ok_merge String.eqb _ (TodoUpdate.title patch) (Todo.title old)
               String.eqb_refl);
      [|congruence|intros a Ha; now apply Sti].
    rewrite (set_ok_merge String.eqb _ (TodoUpdate.description patch)
               (Todo.description old) String.eqb_refl);
      [|reflexivity|intros a Ha; now apply Sde].
    rewrite (set_ok_merge Z.eqb _ (TodoUpdate.estimated_minutes patch)
               (Todo.estimated_minutes old) Z.eqb_refl);
      [|reflexivity|intros a Ha; now apply Ses].
    rewrite (set_ok_merge String.eqb _ (TodoUpdate.status patch)
               (Todo.status old) String.eqb_refl);
      [|reflexivity|intros a Ha; now apply Sst].
    rewrite (set_ok_merge Z.eqb _ (TodoUpdate.priority patch)
               (Todo.priority old) Z.eqb_refl);
      [|reflexivity|intros a Ha; now apply Spr].
    reflexivity. }
  rewrite Hup.
  exists new, (Sql.delete item_id db ++ [new]).
  split; [reflexivity|]. split; [exact Hup|]. split.
  - rewrite (get_update new item_id db _ Hup).
    change (Todo.id new) with (Todo.id old). rewrite Hid, N.eqb_refl.
    now rewrite Hold.
  - unfold Spec.merged, new. simpl. tauto.
Qed.

(** A patch that sets [title] to [null] is refused by the NOT NULL
    constraint when the session flushes; nothing is committed. *)
Lemma update_todo_null_title now item_id patch db old :
  Sql.get item_id db = Some old ->
  Sql.not_null old = true ->
  TodoUpdate.title patch = Null ->
  Api.update_todo now item_id patch db = (Raise HTTP_500_INTERNAL, db).
Proof.
  intros Hold Hnn Hti.
  rewrite (update_todo_run now item_id patch db old Hold). cbv zeta.
  rewrite setattr_items, Hti.
  destruct (get_Some _ _ _ Hold) as [_ Hid].
  unfold Sql.update. simpl Todo.id. rewrite Hid, Hold. simpl.
  unfold Sql.not_null in Hnn. destruct (Todo.title old); [|discriminate].
  reflexivity.
Qed.

Lemma validate_patch body patch :
  TodoUpdate.validate body = Some patch -> patch = body.
Proof.
  unfold TodoUpdate.validate.
  match goal with |- (if ?c then _ else _) = _ -> _ => destruct c end;
    [|discriminate].
  congruence.
Qed.

(** *** The constraints of the table are kept by every handler *)

Lemma NoDup_ids_filter (keep : Todo.t -> bool) db :
  NoDup (map Todo.id db) -> NoDup (map Todo.id (filter keep db)).
Proof.
  induction db as [|r db IH]; simpl; [auto|].
  intros H. inversion H as [|? ? Hnot Hrest]; subst.
  destruct (keep r); simpl; [|auto].
  constructor; [|auto].
  intros Hin. apply Hnot. apply in_map_iff in Hin.
  destruct Hin as (x & Hx & Hf). apply filter_In in Hf.
  apply in_map_iff. exists x. tauto.
Qed.

Lemma well_formed_append row db :
  Spec.well_formed db -> Sql.not_null row = true ->
  Sql.get (Todo.id row) db = None ->
  Spec.well_formed (db ++ [row]).
Proof.
  intros [Hnn Hnd] Hrow Hfresh. split.
  - apply Forall_app. split; [assumption|]. now constructor.
  - rewrite map_app. simpl. apply get_None in Hfresh.
    apply NoDup_app; [assumption|constructor; [simpl; tauto|constructor]|].
    intros x Hx [<-|[]]. contradiction.
Qed.

Lemma well_formed_delete item_id db :
  Spec.well_formed db -> Spec.well_formed (Sql.delete item_id db).
Proof.
  intros [Hnn Hnd]. split.
  - unfold Sql.delete. apply Forall_forall. intros r Hr.
    apply filter_In in Hr. rewrite Forall_forall in Hnn. now apply Hnn.
  - now apply NoDup_ids_filter.
Qed.

Lemma well_formed_insert row db db' :
  Spec.well_formed db -> Sql.insert row db = Some db' -> Spec.well_formed db'.
Proof.
  intros Hwf. unfold Sql.insert. cbv zeta.
  destruct (Sql.not_null (Sql.with_defaults row)) eqn:Hrow; [|discriminate].
  destruct (Sql.storable (Sql.with_defaults row)); [|discriminate].
  destruct (existsb (Sql.has_id (Todo.id (Sql.with_defaults row))) db) eqn:Hex;
    [discriminate|].
  simpl. intros H. injection H as <-.
  apply well_formed_append; [exact Hwf|exact Hrow|].
  now apply existsb_has_id.
Qed.

(** An UPDATE that is accepted leaves a title in the row. *)
Lemma update_not_null row db db' :
  Forall (fun r => Sql.not_null r = true) db ->
  Sql.update row db = Some db' -> Sql.not_null row = true.
Proof.
  intros Hnn. unfold Sql.update.
  destruct (Sql.get (Todo.id row) db) as [old|] eqn:Hold; [|discriminate].
  destruct (Sql.set_ok String.eqb _ (Todo.title old) (Todo.title row)) eqn:Hti;
    [|discriminate].
  intros _. unfold Sql.set_ok in Hti. apply orb_true_iff in Hti.
  unfold Sql.not_null. destruct Hti as [Hsame|Hok].
  - apply same_eq_string in Hsame. rewrite <- Hsame.
    rewrite Forall_forall in Hnn.
    apply (Hnn old). now apply (get_Some (Todo.id row) db old).
  - now destruct (Todo.title row).
Qed.

Lemma well_formed_update row db db' :
  Spec.well_formed db -> Sql.update row db = Some db' -> Spec.well_formed db'.
Proof.
  intros Hwf Hup.
  pose proof (update_not_null row db db' (proj1 Hwf) Hup) as Hrow.
  destruct (update_shape row db db' Hup) as [_ ->].
  apply well_formed_append; [now apply well_formed_delete|exact Hrow|].
  now rewrite get_delete, N.eqb_refl.
Qed.

(** X19.  The declared constraints of the table hold through every
    request, whatever its outcome: once no two rows share an identifier and
    no row has a null title, it stays so after any create, update or
    delete; get and list leave the table as it is. *)
Theorem well_formed_invariant db :
  Spec.well_formed db ->
  (forall new_id now body,
      Spec.well_formed (snd (Api.POST_todos new_id now body db))) /\
  (forall now item_id body,
      Spec.well_formed (snd (Api.PATCH_todo now item_id body db))) /\
  (forall item_id, Spec.well_formed (snd (Api.delete_todo item_id db))) /\
  (forall item_id, snd (Api.get_todo item_id db) = db) /\
  (forall q tag status limit, snd (Api.list_todos q tag status limit db) = db).
Proof.
  intros Hwf. split; [|split; [|split; [|split]]].
  - intros new_id now body. unfold Api.POST_todos.
    destruct (TodoCreate.validate body) as [item|]; [|exact Hwf].
    unfold Api.create_todo, bind, session_add_new.
    destruct (Sql.insert _ db) as [db'|] eqn:Hins; [|exact Hwf].
    apply (well_formed_insert _ _ _ Hwf) in Hins.
    unfold session_refresh. now destruct (Sql.get _ db').
  - intros now item_id body. unfold Api.PATCH_todo.
    destruct (TodoUpdate.validate body) as [patch|]; [|exact Hwf].
    destruct (Sql.get item_id db) as [old|] eqn:Hold.
    + rewrite (update_todo_run now item_id patch db old Hold). cbv zeta.
      destruct (Sql.update _ db) as [db'|] eqn:Hup; [|exact Hwf].
      apply (well_formed_update _ _ _ Hwf Hup).
    + now rewrite update_todo_missing.
  - intros item_id. rewrite delete_todo_run.
    destruct (Sql.get item_id db); [|exact Hwf].
    now apply well_formed_delete.
  - intros item_id. rewrite get_todo_run. now destruct (Sql.get item_id db).
  - intros q tag status limit. unfold Api.list_todos.
    destruct (Api.Query_le 100 1000 limit); [|reflexivity].
    unfold session_exec. now destruct (Sql.exec _ db).
Qed.

End MutationFacts.

(** ** The title of a create request *)

(** The values of a sample body or patch are storable. *)
Ltac storable_values :=
  repeat split; intros a H; first [discriminate H | injection H as <-; reflexivity].

(** C2 (as written) fails: a create whose title is the empty string passes
    validation and is persisted. *)
Lemma blank_title_is_persisted :
  ~ Spec.blank_title_is_rejected 3%N 1700000100 (Sample.titled (Value "")) Sample.db.
Proof.
  intros H. specialize (H (or_intror eq_refl)).
  vm_compute in H. discriminate.
Qed.

(** C2 (amended).  A create request whose title is absent or null fails
    with status 422 and persists nothing.  A title that is the empty string
    is accepted: when the other fields validate, the values are ones that
    the backend stores (no NUL character in a text, numbers within 32 bits)
    and the generated identifier is fresh, the record is persisted with the
    empty title. *)
Theorem POST_todos_title (new_id : UUID) (now : datetime)
  (body : CreateBody.t) (db : Sql.table) :
  (CreateBody.title body = Unset \/ CreateBody.title body = Null ->
   Api.POST_todos new_id now body db = (Raise HTTP_422_UNPROCESSABLE, db)) /\
  (forall item,
     CreateBody.title body = Value "" ->
     TodoCreate.validate body = Some item ->
     Spec.storable_body body ->
     Sql.get new_id db = None ->
     exists todo,
       Api.POST_todos new_id now body db = (Ok todo, db ++ [todo])
       /\ Todo.title todo = Some ""
       /\ Sql.get new_id (db ++ [todo]) = Some todo).
Proof.
  split.
  - intros Hti. unfold Api.POST_todos, TodoCreate.validate.
    destruct Hti as [-> | ->]; reflexivity.
  - intros item Hti Hv Hst Hfresh.
    pose proof (POST_todos_run new_id now body item db Hv Hfresh Hst) as Hrun.
    cbv zeta in Hrun. eexists. split; [exact Hrun|]. split.
    + pose proof (validate_echoes new_id now body item Hv) as (Hc & _).
      rewrite Hti in Hc. exact Hc.
    + rewrite get_app, Hfresh. unfold Sql.get. simpl.
      replace (Sql.has_id new_id (Sql.with_defaults (Api.new_Todo new_id now item)))
        with true; [reflexivity|].
      symmetry. now apply has_id_true.
Qed.

(** A body without title and a body with an empty title, on the sample
    table. *)
Lemma POST_todos_title_witness :
  Api.POST_todos 3%N 1700000100 (Sample.titled Unset) Sample.db
  = (Raise HTTP_422_UNPROCESSABLE, Sample.db) /\
  (exists todo,
     Api.POST_todos 3%N 1700000100 (Sample.titled (Value "")) Sample.db
     = (Ok todo, Sample.db ++ [todo])
     /\ Todo.title todo = Some ""
     /\ Sql.get 3%N (Sample.db ++ [todo]) = Some todo).
Proof.
  split.
  - apply (proj1 (POST_todos_title 3%N 1700000100 (Sample.titled Unset) Sample.db)).
    left. reflexivity.
  - apply (proj2 (POST_todos_title 3%N 1700000100 (Sample.titled (Value "")) Sample.db)
             (TodoCreate.mk "" None None None (Some 3) None));
      try reflexivity.
    storable_values.
Defined.

(** ** Create, then get *)

(** C6 (as written) fails.  A body whose priority is [null] validates, and
    the record that is created and fetched has priority 3, the default of
    the column, not the [null] that the caller supplied.  A body whose
    [estimated_minutes] is 2^31 validates as well, and the create ends with
    status 500: there is nothing to fetch. *)
Lemma create_does_not_round_trip :
  ~ Spec.create_round_trips 3%N 1700000100 Sample.null_priority Sample.db /\
  ~ Spec.create_round_trips 3%N 1700000100 Sample.too_long Sample.db.
Proof.
  split; intros H.
  - destruct H as (todo & db' & Hrun & _ & Hech & _);
      [discriminate|reflexivity|].
    vm_compute in Hrun. injection Hrun as <- _.
    destruct Hech as (_ & _ & _ & _ & Hpr & _). discriminate.
  - destruct H as (todo & db' & Hrun & _); [discriminate|reflexivity|].
    vm_compute in Hrun. discriminate.
Qed.

(** C6 (amended).  For a create body that validates and whose values are
    ones that the backend stores (no NUL character in a text, numbers within
    32 bits), and a generated identifier that is fresh, the create succeeds,
    and getting the returned identifier afterwards yields the created
    record.  It carries every field that the caller supplied, except that a
    priority supplied as [null] is stored as the default 3; [created_at] is
    the time of the request and [updated_at] is absent. *)
Theorem create_then_get (new_id : UUID) (now : datetime)
  (body : CreateBody.t) (item : TodoCreate.t) (db : Sql.table) :
  TodoCreate.validate body = Some item ->
  Spec.storable_body body ->
  Sql.get new_id db = None ->
  exists todo db',
    Api.POST_todos new_id now body db = (Ok todo, db')
    /\ Api.get_todo (Todo.id todo) db' = (Ok todo, db')
    /\ Spec.echoes_stored body todo
    /\ Todo.created_at todo = now
    /\ Todo.updated_at todo = None.
Proof.
  intros Hv Hst Hfresh.
  pose proof (POST_todos_run new_id now body item db Hv Hfresh Hst) as Hrun.
  cbv zeta in Hrun.
  set (todo := Sql.with_defaults (Api.new_Todo new_id now item)) in *.
  exists todo, (db ++ [todo]).
  split; [exact Hrun|]. split; [|split; [|split]].
  - rewrite get_todo_run. change (Todo.id todo) with new_id.
    rewrite get_app, Hfresh. unfold Sql.get. simpl.
    replace (Sql.has_id new_id todo) with true; [reflexivity|].
    symmetry. now apply has_id_true.
  - now apply validate_echoes_stored.
  - reflexivity.
  - reflexivity.
Qed.

(** Creating [Sample.eggs] in the sample table, then getting it. *)
Lemma create_then_get_witness :
  exists todo db',
    Api.POST_todos 3%N 1700000100 Sample.eggs Sample.db = (Ok todo, db')
    /\ Api.get_todo (Todo.id todo) db' = (Ok todo, db')
    /\ Spec.echoes_stored Sample.eggs todo
    /\ Todo.created_at todo = 1700000100
    /\ Todo.updated_at todo = None.
Proof.
  apply (create_then_get 3%N 1700000100 Sample.eggs
           (TodoCreate.mk "Buy eggs" (Some "a dozen") None (Some 15) (Some 2)
                          (Some ["home"; "food"])));
    try reflexivity.
  storable_values.
Defined.

(** ** Partial update *)

(** C3 (as written) fails: a patch that sets [title] to [null] is not
    merged; the request ends with status 500 and the record is left as it
    was. *)
Lemma null_title_is_not_merged :
  ~ Spec.every_patch_is_merged 1700000100 1%N Sample.null_title Sample.db.
Proof.
  intros H. destruct (H Sample.milk eq_refl) as (new & db' & Hrun & _).
  vm_compute in Hrun. discriminate.
Qed.

(** C3 (amended).  In a table that obeys its constraints, for every
    existing record and every patch that does not set [title] to [null] and
    whose values are ones that the backend stores (no NUL character in a
    text, numbers within 32 bits), the update stores the value of each key
    present in the patch, leaves every other field (among them [id] and
    [created_at]) at its prior value, sets [updated_at] to the time of the
    request, returns the record as it is now stored, and leaves every other
    record as it was. *)
Theorem update_todo_merges (now : datetime) (item_id : UUID)
  (patch : TodoUpdate.t) (db : Sql.table) (old : Todo.t) :
  Spec.well_formed db ->
  Sql.get item_id db = Some old ->
  TodoUpdate.title patch <> Null ->
  Spec.storable_patch patch ->
  exists new db',
    Api.update_todo now item_id patch db = (Ok new, db')
    /\ Sql.get item_id db' = Some new
    /\ Spec.merged patch now old new
    /\ (forall other, other <> item_id -> Sql.get other db' = Sql.get other db).
Proof.
  intros Hwf Hold Hti Hst.
  destruct (update_todo_ok now item_id patch db old Hwf Hold Hti Hst)
    as (new & db' & Hrun & Hup & Hget & Hm).
  exists new, db'. split; [exact Hrun|]. split; [exact Hget|]. split; [exact Hm|].
  intros other Hother.
  rewrite (get_update new other db db' Hup).
  destruct Hm as (Hid & _). destruct (get_Some _ _ _ Hold) as [_ Hold_id].
  destruct (N.eqb_spec other (Todo.id new)); [congruence|reflexivity].
Qed.

Lemma sample_well_formed : Spec.well_formed Sample.db.
Proof.
  split.
  - repeat constructor.
  - repeat constructor; simpl; intuition discriminate.
Qed.

(** Patching the status of [Sample.milk] alone. *)
Lemma update_todo_merges_witness :
  exists new db',
    Api.update_todo 1700000100 1%N Sample.only_status Sample.db = (Ok new, db')
    /\ Sql.get 1%N db' = Some new
    /\ Spec.merged Sample.only_status 1700000100 Sample.milk new
    /\ (forall other, other <> 1%N -> Sql.get other db' = Sql.get other Sample.db).
Proof.
  apply (update_todo_merges 1700000100 1%N Sample.only_status Sample.db Sample.milk).
  - exact sample_well_formed.
  - reflexivity.
  - discriminate.
  - storable_values.
Defined.

(** ** Null against omitted *)

(** C4 (as written) fails for [title]: a patch that sets it to [null] does
    not clear it, the stored record keeps its title. *)
Lemma null_title_is_not_cleared :
  ~ Spec.null_clears_every_field 1700000100 1%N Sample.null_title Sample.db.
Proof.
  intros H. destruct (H Sample.milk eq_refl) as (new & Hget & [Hclear _] & _).
  vm_compute in Hget. injection Hget as <-.
  specialize (Hclear eq_refl). discriminate.
Qed.

Lemma merge_null_clears {A} (f : field A) (old new : option A) :
  new = Spec.merge f old -> Spec.null_clears f old new.
Proof. intros ->. split; intros ->; reflexivity. Qed.

(** C4 (amended).  In a table that obeys its constraints, for every
    existing record and every PATCH body that validates, does not set
    [title] to [null] and holds values that the backend stores (no NUL
    character in a text, numbers within 32 bits): each of [description],
    [due_at], [estimated_minutes], [status], [priority] and [tags] is
    cleared when the body gives it as [null] and keeps its prior value when
    the body omits it, and [title] keeps its prior value when the body omits
    it. *)
Theorem PATCH_null_clears (now : datetime) (item_id : UUID)
  (body patch : TodoUpdate.t) (db : Sql.table) (old : Todo.t) :
  Spec.well_formed db ->
  Sql.get item_id db = Some old ->
  TodoUpdate.validate body = Some patch ->
  TodoUpdate.title body <> Null ->
  Spec.storable_patch body ->
  exists new db',
    Api.PATCH_todo now item_id body db = (Ok new, db')
    /\ Sql.get item_id db' = Some new
    /\ Spec.null_clears (TodoUpdate.description body)
         (Todo.description old) (Todo.description new)
    /\ Spec.null_clears (TodoUpdate.due_at body) (Todo.due_at old) (Todo.due_at new)
    /\ Spec.null_clears (TodoUpdate.estimated_minutes body)
         (Todo.estimated_minutes old) (Todo.estimated_minutes new)
    /\ Spec.null_clears (TodoUpdate.status body) (Todo.status old) (Todo.status new)
    /\ Spec.null_clears (TodoUpdate.priority body)
         (Todo.priority old) (Todo.priority new)
    /\ Spec.null_clears (TodoUpdate.tags body) (Todo.tags old) (Todo.tags new)
    /\ (TodoUpdate.title body = Unset -> Todo.title new = Todo.title old).
Proof.
  intros Hwf Hold Hv Hti Hst.
  pose proof (validate_patch body patch Hv) as ->.
  destruct (update_todo_ok now item_id body db old Hwf Hold Hti Hst)
    as (new & db' & Hrun & _ & Hget & Hm).
  exists new, db'. unfold Api.PATCH_todo. rewrite Hv.
  split; [exact Hrun|]. split; [exact Hget|].
  destruct Hm as (_ & Hti' & Hde & Hdu & Hes & Hst' & Hpr & Hta & _).
  repeat (split; [now apply merge_null_clears|]).
  intros Hun. now rewrite Hti', Hun.
Qed.

(** [Sample.clearing] clears [description] and [priority] of [Sample.milk]
    and keeps its [status] and [title]. *)
Lemma PATCH_null_clears_witness :
  exists new db',
    Api.PATCH_todo 1700000100 1%N Sample.clearing Sample.db = (Ok new, db')
    /\ Sql.get 1%N db' = Some new
    /\ Todo.description new = None
    /\ Todo.priority new = None
    /\ Todo.status new = Some "todo"
    /\ Todo.title new = Some "Buy milk".
Proof.
  destruct (PATCH_null_clears 1700000100 1%N Sample.clearing Sample.clearing
              Sample.db Sample.milk)
    as (new & db' & Hrun & Hget & [Hde _] & _ & _ & [_ Hst] & [Hpr _] & _ & Hti).
  - exact sample_well_formed.
  - reflexivity.
  - reflexivity.
  - discriminate.
  - storable_values.
  - exists new, db'.
    split; [exact Hrun|]. split; [exact Hget|].
    split; [now apply Hde|]. split; [now apply Hpr|].
    split; [now apply Hst|now apply Hti].
Defined.

(** ** LIKE patterns without special characters *)

Section LikeFacts.

Implicit Types (p q t v : string) (c x : ascii).


Lemma lower_app q t :
  Py.lower (q ++ t)%string = (Py.lower q ++ Py.lower t)%string.
Proof.
  induction q as [|c q IH]; simpl; [reflexivity|]. now rewrite IH.
Qed.


(** One step of [%]: it matches nothing here, or one more character. *)
Lemma like_percent_step p t :
  Sql.like (String "%" p) t =
    Sql.like p t
    || match t with
       | EmptyString => false
       | String _ t' => Sql.like (String "%" p) t'
       end.
Proof. destruct t; reflexivity. Qed.

Lemma like_percent p t :
  Sql.like (String "%" p) t = true
  <-> exists pre post, t = (pre ++ post)%string /\ Sql.like p post = true.
Proof.
  induction t as [|x t IH]; rewrite like_percent_step, orb_true_iff.
  - split.
    + intros [H|H]; [|discriminate]. now exists EmptyString, EmptyString.
    + intros (pre & post & E & H). left.
      destruct pre; [simpl in E; now subst|discriminate].
  - rewrite IH. split.
    + intros [H|(pre & post & -> & H)].
      * now exists EmptyString, (String x t).
      * now exists (String x pre), post.
    + intros (pre & post & E & H). destruct pre as [|y pre]; simpl in E.
      * left. now subst.
      * right. injection E as _ ->. now exists pre, post.
Qed.






(** The patterns of [list_todos] never end in a backslash that escapes
    nothing, whatever the text filter: the error case of [Sql.like] is not
    reached. *)
Lemma pattern_escapes_closed q :
  Sql.dangling_escape (Py.lower ("%" ++ q ++ "%")%string) = false.
Proof.
  change ("%" ++ q ++ "%")%string with (String "%" (q ++ "%")%string).
  change (Py.lower (String "%" (q ++ "%")%string))
    with (String "%" (Py.lower (q ++ "%")%string)).
  rewrite lower_app.
  change (Sql.dangling_escape (String "%" (Py.lower q ++ Py.lower "%")%string))
    with (Sql.dangling_escape (Py.lower q ++ "%")%string).
  generalize (Py.lower q). clear q. intros q.
  enough (H : Sql.dangling_escape (q ++ "%")%string = false
              /\ forall c, Sql.dangling_escape (String c (q ++ "%")%string) = false)
    by apply H.
  induction q as [|x q [IH1 IH2]].
  - split; [reflexivity|]. intros c. simpl. now destruct (Ascii.eqb c "\").
  - split; [apply IH2|]. intros c.
    cbn [append Sql.dangling_escape].
    destruct (Ascii.eqb c "\"); [exact IH1|exact (IH2 x)].
Qed.

End LikeFacts.

(** ** Filters *)

Section FilterFacts.

Implicit Types (q tag status : option string) (row : Todo.t).






End FilterFacts.


(** The special characters of a LIKE pattern are not escaped: [b_y] finds
    "Buy milk", which does not contain it. *)
Example underscore_is_a_wildcard :
  fst (Api.list_todos (Some "b_y m") None None None Sample.db) = Ok [Sample.milk].
Proof. reflexivity. Qed.

(** The case of accented letters is folded as well: a small e with acute
    accent (233) finds a title with the capital one (201). *)
Example accented_letters_fold :
  Sql.ilike (Some (String (ascii_of_nat 201) "COLE"))
            ("%" ++ String (ascii_of_nat 233) "" ++ "%")%string = true.
Proof. reflexivity. Qed.



(** The filter example of the specification: of "Buy milk" (tag home) and
    "Buy bread" (tag work), [q=buy&tag=home] returns the first only. *)
Example buy_at_home :
  Api.list_todos (Some "buy") (Some "home") None None Sample.db
  = (Ok [Sample.milk], Sample.db).
Proof. reflexivity. Qed.

(** The partial-update example: a patch of [status] alone changes [status]
    and [updated_at] and nothing else. *)
Example patch_status_only :
  fst (Api.PATCH_todo 1700000100 1%N Sample.only_status Sample.db)
  = Ok (Todo.mk 1%N (Some "Buy milk") None None None (Some "done") (Some 3)
                (Some ["home"]) 1700000000 (Some 1700000100)).
Proof. reflexivity. Qed.

(** * Further properties of the code *)

(** ** The validator beyond its contract *)

Section StripFacts.

Implicit Types (s k : string) (c : ascii).

Lemma lstrip_fixed c s : Py.isspace c = false -> Py.lstrip (String c s) = String c s.
Proof. intros H. simpl. now rewrite H. Qed.

Lemma rstrip_idem s : Py.rstrip (Py.rstrip s) = Py.rstrip s.
Proof.
  induction s as [|c s IH]; [reflexivity|].
  simpl. destruct (Py.rstrip s) as [|x r] eqn:E.
  - destruct (Py.isspace c) eqn:Hc; [reflexivity|]. simpl. now rewrite Hc.
  - change (Py.rstrip (String c (String x r)))
      with (match Py.rstrip (String x r) with
            | EmptyString => if Py.isspace c then EmptyString else String c EmptyString
            | String y r' => String c (String y r')
            end).
    now rewrite IH.
Qed.

(** [rstrip] keeps a first character that is not a blank. *)
Lemma rstrip_head c s :
  Py.isspace c = false -> exists r, Py.rstrip (String c s) = String c r.
Proof.
  intros H. simpl. destruct (Py.rstrip s) as [|x r].
  - rewrite H. now exists EmptyString.
  - now exists (String x r).
Qed.

Lemma strip_idem s : Py.strip (Py.strip s) = Py.strip s.
Proof.
  unfold Py.strip. destruct (Py.lstrip s) as [|c t] eqn:E; [reflexivity|].
  pose proof (lstrip_head s c t E) as Hc.
  destruct (rstrip_head c t Hc) as [r Hr].
  rewrite Hr, (lstrip_fixed c r Hc), <- Hr. apply rstrip_idem.
Qed.

Lemma strip_nonempty k : Py.strip k <> "" -> k <> "".
Proof. intros H ->. now apply H. Qed.

End StripFacts.

Section ValidatorMore.

Variable API_KEY : string.

(** Whoever is authorized presented the configured secret. *)
Lemma get_api_key_sound (header : option string) (authorized : string) :
  Security.get_api_key API_KEY header = Ok authorized ->
  authorized = API_KEY /\ Spec.bears_secret API_KEY header.
Proof.
  destruct header as [k|]; [|discriminate].
  destruct (string_dec k "") as [->|Hne]; [discriminate|].
  rewrite (get_api_key_compare API_KEY k Hne). unfold Py.compare_digest.
  destruct (Py.isascii (Py.strip k) && Py.isascii API_KEY); [|discriminate].
  destruct (String.eqb_spec (Py.strip k) API_KEY) as [E|E]; [|discriminate].
  intros H. injection H as <-. split; [exact E|]. now exists k.
Qed.

Lemma get_api_key_raises (header : option string) (e : Z) :
  Security.get_api_key API_KEY header = Raise e ->
  e = HTTP_401_UNAUTHORIZED \/ e = HTTP_403_FORBIDDEN \/ e = HTTP_500_INTERNAL.
Proof.
  destruct header as [k|]; [|intros H; injection H as <-; auto].
  destruct (string_dec k "") as [->|Hne]; [intros H; injection H as <-; auto|].
  rewrite (get_api_key_compare API_KEY k Hne).
  destruct (Py.compare_digest _ _) as [[|]|]; intros H;
    [discriminate|injection H as <-; auto|injection H as <-; auto].
Qed.

(** X1.  The outcome of the validator does not depend on blanks around the
    presented secret: a header whose stripped value is not empty gets the
    answer of its stripped value. *)
Theorem get_api_key_ignores_blanks (k : string) :
  Py.strip k <> "" ->
  Security.get_api_key API_KEY (Some k)
  = Security.get_api_key API_KEY (Some (Py.strip k)).
Proof.
  intros H.
  rewrite (get_api_key_compare API_KEY k (strip_nonempty k H)).
  rewrite (get_api_key_compare API_KEY (Py.strip k) H).
  now rewrite strip_idem.
Qed.

(** X2.  A configured secret with a character outside ASCII locks
    everybody out: a missing or empty header gets 401 and every other
    header gets 500, the configured secret itself included. *)
Theorem non_ascii_secret_locks_out (header : option string) :
  Py.isascii API_KEY = false ->
  Security.get_api_key API_KEY header
  = if Py.truthy header then Raise HTTP_500_INTERNAL
    else Raise HTTP_401_UNAUTHORIZED.
Proof.
  intros H. destruct header as [[|c k]|]; try reflexivity.
  unfold Security.get_api_key, Py.compare_digest. simpl Py.truthy. cbv iota.
  simpl negb. cbv iota. now rewrite H, andb_false_r.
Qed.

End ValidatorMore.

(** Blanks around the right secret and around a wrong one. *)
Lemma get_api_key_ignores_blanks_witness :
  Security.get_api_key "secret" (Some "  secret ")
  = Security.get_api_key "secret" (Some (Py.strip "  secret ")) /\
  Security.get_api_key "secret" (Some " other  ")
  = Security.get_api_key "secret" (Some (Py.strip " other  ")).
Proof.
  split; apply get_api_key_ignores_blanks; discriminate.
Defined.

(** A configured secret with the character of code 228: the secret itself
    is answered 500. *)
Lemma non_ascii_secret_locks_out_witness :
  Security.get_api_key (String (ascii_of_nat 228) "bc")
    (Some (String (ascii_of_nat 228) "bc"))
  = Raise HTTP_500_INTERNAL.
Proof.
  apply (non_ascii_secret_locks_out (String (ascii_of_nat 228) "bc")
           (Some (String (ascii_of_nat 228) "bc"))).
  reflexivity.
Defined.

(** ** The routes *)

Section RouteFacts.

Variable API_KEY : string.

Lemma secured_refused {A} (header : option string) (endpoint : Session A)
  (e : Z) (db : Sql.table) :
  Security.get_api_key API_KEY header = Raise e ->
  Routes.secured API_KEY header endpoint db = (Raise e, db).
Proof. intros H. unfold Routes.secured. now rewrite H. Qed.


(** X3.  A request that does not carry the configured secret gets nothing
    from any route of the router and changes nothing: each route answers
    with the status of the validator (401, 403 or 500) and leaves the table
    as it was, whatever its parameters and body. *)
Theorem routes_require_secret (header : option string) (db : Sql.table) :
  ~ Spec.bears_secret API_KEY header ->
  exists e,
    (e = HTTP_401_UNAUTHORIZED \/ e = HTTP_403_FORBIDDEN \/ e = HTTP_500_INTERNAL)
    /\ (forall new_id now body,
          Routes.post_todos API_KEY header new_id now body db = (Raise e, db))
    /\ (forall q tag status limit,
          Routes.get_todos API_KEY header q tag status limit db = (Raise e, db))
    /\ (forall item_id,
          Routes.get_todo API_KEY header item_id db = (Raise e, db))
    /\ (forall now item_id body,
          Routes.patch_todo API_KEY header now item_id body db = (Raise e, db))
    /\ (forall item_id,
          Routes.delete_todo API_KEY header item_id db = (Raise e, db)).
Proof.
  intros Hno.
  destruct (Security.get_api_key API_KEY header) as [x|e] eqn:Hkey.
  - exfalso. apply Hno. now apply (get_api_key_sound API_KEY header x).
  - exists e. split; [now apply (get_api_key_raises API_KEY header)|].
    split; [|split; [|split; [|split]]]; intros;
      now apply secured_refused.
Qed.

End RouteFacts.

(** A wrong secret against the sample table. *)
Lemma routes_require_secret_witness :
  exists e,
    (e = HTTP_401_UNAUTHORIZED \/ e = HTTP_403_FORBIDDEN \/ e = HTTP_500_INTERNAL)
    /\ (forall new_id now body,
          Routes.post_todos "secret" (Some "guess") new_id now body Sample.db
          = (Raise e, Sample.db))
    /\ (forall q tag status limit,
          Routes.get_todos "secret" (Some "guess") q tag status limit Sample.db
          = (Raise e, Sample.db))
    /\ (forall item_id,
          Routes.get_todo "secret" (Some "guess") item_id Sample.db
          = (Raise e, Sample.db))
    /\ (forall now item_id body,
          Routes.patch_todo "secret" (Some "guess") now item_id body Sample.db
          = (Raise e, Sample.db))
    /\ (forall item_id,
          Routes.delete_todo "secret" (Some "guess") item_id Sample.db
          = (Raise e, Sample.db)).
Proof.
  apply (routes_require_secret "secret" (Some "guess") Sample.db).
  intros (k & Hk & Hs). injection Hk as <-. discriminate.
Defined.

(** ** Validation of the bodies *)

Section ValidationFacts.

Implicit Types (db : Sql.table) (row : Todo.t) (item_id : UUID).

Lemma ge_false lo v : ge lo v = false <-> v < lo.
Proof. unfold ge. rewrite Z.leb_gt. tauto. Qed.

Lemma ge_le_false lo hi v : ge_le lo hi v = false <-> v < lo \/ hi < v.
Proof. unfold ge_le. rewrite andb_false_iff, !Z.leb_gt. tauto. Qed.

(** An [Optional] field fails on a value that is not of its type or that
    does not pass its constraint, and on nothing else. *)
Lemma optional_field_None {A} (default : option A) (constraint : A -> bool)
  (f : field A) :
  optional_field default constraint f = None
  <-> f = IllTyped \/ exists v, f = Value v /\ constraint v = false.
Proof.
  destruct f as [| |v|]; simpl.
  - split; [discriminate|]. intros [H|(v & E & _)]; discriminate.
  - split; [discriminate|]. intros [H|(v & E & _)]; discriminate.
  - destruct (constraint v) eqn:E.
    + split; [discriminate|].
      intros [H|(v' & Ev & H)]; [discriminate|]. injection Ev as <-. congruence.
    + split; [|reflexivity]. intros _. right. now exists v.
  - split; [|reflexivity]. intros _. now left.
Qed.

Lemma optional_field_untyped {A} (default : option A) (f : field A) :
  optional_field default unconstrained f = None <-> f = IllTyped.
Proof.
  rewrite optional_field_None. split; [|tauto].
  intros [H|(v & _ & H)]; [exact H|discriminate].
Qed.

Lemma required_field_None {A} (f : field A) :
  required_field unconstrained f = None <-> forall t, f <> Value t.
Proof.
  destruct f as [| |v|]; simpl; split; try discriminate; try reflexivity.
  intros H. now destruct (H v).
Qed.

Lemma validate_create_None (body : CreateBody.t) :
  TodoCreate.validate body = None
  <-> (forall t, CreateBody.title body <> Value t)
      \/ CreateBody.description body = IllTyped
      \/ CreateBody.due_at body = IllTyped
      \/ (CreateBody.estimated_minutes body = IllTyped
          \/ exists v, CreateBody.estimated_minutes body = Value v /\ v < 0)
      \/ (CreateBody.priority body = IllTyped
          \/ exists v, CreateBody.priority body = Value v /\ (v < 1 \/ 5 < v))
      \/ CreateBody.tags body = IllTyped.
Proof.
  rewrite <- required_field_None.
  rewrite <- (optional_field_untyped None (CreateBody.description body)).
  rewrite <- (optional_field_untyped None (CreateBody.due_at body)).
  rewrite <- (optional_field_untyped None (CreateBody.tags body)).
  assert (Hes : optional_field None (ge 0) (CreateBody.estimated_minutes body) = None
                <-> CreateBody.estimated_minutes body = IllTyped
                    \/ exists v, CreateBody.estimated_minutes body = Value v /\ v < 0).
  { rewrite optional_field_None. split; (intros [H|(v & E & H)]; [now left|right]);
      exists v; (split; [exact E|]); now apply ge_false. }
  assert (Hpr : optional_field (Some 3) (ge_le 1 5) (CreateBody.priority body) = None
                <-> CreateBody.priority body = IllTyped
                    \/ exists v, CreateBody.priority body = Value v
                                 /\ (v < 1 \/ 5 < v)).
  { rewrite optional_field_None. split; (intros [H|(v & E & H)]; [now left|right]);
      exists v; (split; [exact E|]); now apply ge_le_false. }
  rewrite <- Hes, <- Hpr. unfold TodoCreate.validate.
  destruct (required_field _ _); [|tauto].
  destruct (optional_field None unconstrained (CreateBody.description body));
    [|tauto].
  destruct (optional_field None unconstrained (CreateBody.due_at body)); [|tauto].
  destruct (optional_field None (ge 0) _); [|tauto].
  destruct (optional_field (Some 3) _ _); [|tauto].
  destruct (optional_field None unconstrained (CreateBody.tags body)); [|tauto].
  split; [discriminate|]. intuition discriminate.
Qed.

Lemma field_ok_false {A} (constraint : A -> bool) (f : field A) :
  TodoUpdate.field_ok constraint f = false
  <-> optional_field None constraint f = None.
Proof.
  unfold TodoUpdate.field_ok.
  destruct (optional_field None constraint f); split; congruence.
Qed.

Lemma validate_update_None (body : TodoUpdate.t) :
  TodoUpdate.validate body = None
  <-> TodoUpdate.title body = IllTyped
      \/ TodoUpdate.description body = IllTyped
      \/ TodoUpdate.due_at body = IllTyped
      \/ (TodoUpdate.estimated_minutes body = IllTyped
          \/ exists v, TodoUpdate.estimated_minutes body = Value v /\ v < 0)
      \/ TodoUpdate.status body = IllTyped
      \/ (TodoUpdate.priority body = IllTyped
          \/ exists v, TodoUpdate.priority body = Value v /\ (v < 1 \/ 5 < v))
      \/ TodoUpdate.tags body = IllTyped.
Proof.
  rewrite <- (optional_field_untyped None (TodoUpdate.title body)).
  rewrite <- (optional_field_untyped None (TodoUpdate.description body)).
  rewrite <- (optional_field_untyped None (TodoUpdate.due_at body)).
  rewrite <- (optional_field_untyped None (TodoUpdate.status body)).
  rewrite <- (optional_field_untyped None (TodoUpdate.tags body)).
  assert (Hes : optional_field None (ge 0) (TodoUpdate.estimated_minutes body) = None
                <-> TodoUpdate.estimated_minutes body = IllTyped
                    \/ exists v, TodoUpdate.estimated_minutes body = Value v /\ v < 0).
  { rewrite optional_field_None. split; (intros [H|(v & E & H)]; [now left|right]);
      exists v; (split; [exact E|]); now apply ge_false. }
  assert (Hpr : optional_field None (ge_le 1 5) (TodoUpdate.priority body) = None
                <-> TodoUpdate.priority body = IllTyped
                    \/ exists v, TodoUpdate.priority body = Value v
                                 /\ (v < 1 \/ 5 < v)).
  { rewrite optional_field_None. split; (intros [H|(v & E & H)]; [now left|right]);
      exists v; (split; [exact E|]); now apply ge_le_false. }
  rewrite <- Hes, <- Hpr, <- !field_ok_false. unfold TodoUpdate.validate.
  destruct (TodoUpdate.field_ok unconstrained (TodoUpdate.title body)),
           (TodoUpdate.field_ok unconstrained (TodoUpdate.description body)),
           (TodoUpdate.field_ok unconstrained (TodoUpdate.due_at body)),
           (TodoUpdate.field_ok (ge 0) (TodoUpdate.estimated_minutes body)),
           (TodoUpdate.field_ok unconstrained (TodoUpdate.status body)),
           (TodoUpdate.field_ok (ge_le 1 5) (TodoUpdate.priority body)),
           (TodoUpdate.field_ok unconstrained (TodoUpdate.tags body));
    simpl; split; intros H; try discriminate; tauto || intuition discriminate.
Qed.

(** The handlers themselves never answer 422. *)
Lemma create_todo_outcome new_id now item db :
  (exists todo db', Api.create_todo new_id now item db = (Ok todo, db'))
  \/ Api.create_todo new_id now item db = (Raise HTTP_500_INTERNAL, db).
Proof.
  rewrite create_todo_insert.
  destruct (Sql.insert _ db) as [db'|]; [left; eauto|right; reflexivity].
Qed.

Lemma update_todo_outcome now item_id patch db :
  (exists todo db', Api.update_todo now item_id patch db = (Ok todo, db'))
  \/ Api.update_todo now item_id patch db = (Raise HTTP_500_INTERNAL, db)
  \/ Api.update_todo now item_id patch db = (Raise HTTP_404_NOT_FOUND, db).
Proof.
  destruct (Sql.get item_id db) as [old|] eqn:E.
  - rewrite (update_todo_run now item_id patch db old E). cbv zeta.
    destruct (Sql.update _ db) as [db'|]; [left; eauto|right; left; reflexivity].
  - right. right. now apply update_todo_missing.
Qed.

(** X4.  A create whose body is a JSON object is answered 422, the table
    unchanged, exactly when its title is missing, null or not a text, one
    of its other values is not of the type of its field, its
    [estimated_minutes] is negative or its [priority] is outside 1..5. *)
Theorem POST_todos_422 (new_id : UUID) (now : datetime) (body : CreateBody.t)
  (db : Sql.table) :
  Api.POST_todos new_id now body db = (Raise HTTP_422_UNPROCESSABLE, db)
  <-> (forall t, CreateBody.title body <> Value t)
      \/ CreateBody.description body = IllTyped
      \/ CreateBody.due_at body = IllTyped
      \/ (CreateBody.estimated_minutes body = IllTyped
          \/ exists v, CreateBody.estimated_minutes body = Value v /\ v < 0)
      \/ (CreateBody.priority body = IllTyped
          \/ exists v, CreateBody.priority body = Value v /\ (v < 1 \/ 5 < v))
      \/ CreateBody.tags body = IllTyped.
Proof.
  rewrite <- validate_create_None. unfold Api.POST_todos.
  destruct (TodoCreate.validate body) as [item|]; [|tauto].
  split; [|discriminate]. intros H.
  destruct (create_todo_outcome new_id now item db) as [(todo & db' & E)|E];
    rewrite E in H; discriminate.
Qed.

(** X5.  An update whose body is a JSON object is answered 422, the table
    unchanged, exactly when one of its values is not of the type of its
    field, its [estimated_minutes] is negative or its [priority] is outside
    1..5, whether the identifier exists or not: the body is checked before
    the record is looked up. *)
Theorem PATCH_todo_422 (now : datetime) (item_id : UUID) (body : TodoUpdate.t)
  (db : Sql.table) :
  Api.PATCH_todo now item_id body db = (Raise HTTP_422_UNPROCESSABLE, db)
  <-> TodoUpdate.title body = IllTyped
      \/ TodoUpdate.description body = IllTyped
      \/ TodoUpdate.due_at body = IllTyped
      \/ (TodoUpdate.estimated_minutes body = IllTyped
          \/ exists v, TodoUpdate.estimated_minutes body = Value v /\ v < 0)
      \/ TodoUpdate.status body = IllTyped
      \/ (TodoUpdate.priority body = IllTyped
          \/ exists v, TodoUpdate.priority body = Value v /\ (v < 1 \/ 5 < v))
      \/ TodoUpdate.tags body = IllTyped.
Proof.
  rewrite <- validate_update_None. unfold Api.PATCH_todo.
  destruct (TodoUpdate.validate body) as [patch|]; [|tauto].
  split; [|discriminate]. intros H.
  destruct (update_todo_outcome now item_id patch db)
    as [(todo & db' & E)|[E|E]]; rewrite E in H; discriminate.
Qed.

End ValidationFacts.

(** ** Create and delete *)

Section CreateDeleteFacts.

Implicit Types (db : Sql.table) (row : Todo.t) (item_id : UUID).

Lemma delete_absent item_id db :
  Sql.get item_id db = None -> Sql.delete item_id db = db.
Proof.
  unfold Sql.get, Sql.delete. induction db as [|r db IH]; simpl; [reflexivity|].
  destruct (Sql.has_id item_id r); [discriminate|].
  intros H. simpl. now rewrite IH.
Qed.

Lemma delete_app item_id db1 db2 :
  Sql.delete item_id (db1 ++ db2) = Sql.delete item_id db1 ++ Sql.delete item_id db2.
Proof. unfold Sql.delete. apply filter_app. Qed.

(** In a table with unique keys a DELETE removes one row. *)
Lemma delete_length item_id db row :
  NoDup (map Todo.id db) -> Sql.get item_id db = Some row ->
  S (List.length (Sql.delete item_id db)) = List.length db.
Proof.
  induction db as [|r db IH]; simpl; [discriminate|].
  intros Hnd Hget. inversion Hnd as [|? ? Hnot Hrest]; subst.
  unfold Sql.get in Hget. simpl in Hget.
  destruct (Sql.has_id item_id r) eqn:E; simpl.
  - apply has_id_true in E. rewrite E in Hnot.
    apply get_None in Hnot. fold (Sql.delete item_id db).
    now rewrite (delete_absent item_id db Hnot).
  - f_equal. now apply IH.
Qed.

(** Without a value, an [Optional] field is the default when the key is
    missing and [None] when it is [null]. *)
Lemma optional_field_no_value {A} (default : option A) (constraint : A -> bool)
  (f : field A) (v : option A) :
  optional_field default constraint f = Some v ->
  (forall a, f <> Value a) ->
  v = None \/ (f = Unset /\ v = default).
Proof.
  destruct f as [| |a|]; simpl; intros H Hno; try discriminate.
  - right. split; [reflexivity|congruence].
  - left. congruence.
  - now destruct (Hno a).
Qed.

Lemma insert_shape row db db' :
  Sql.insert row db = Some db' ->
  db' = db ++ [Sql.with_defaults row] /\ Sql.get (Todo.id row) db = None.
Proof.
  unfold Sql.insert. cbv zeta.
  destruct (Sql.not_null _ && Sql.storable _); [|discriminate].
  change (Todo.id (Sql.with_defaults row)) with (Todo.id row).
  destruct (existsb (Sql.has_id (Todo.id row)) db) eqn:E; [discriminate|].
  simpl. intros H. injection H as <-. split; [reflexivity|].
  now apply existsb_has_id.
Qed.

(** X6.  What a create fills in by itself, for a body that validates and
    holds values that the backend stores: the identifier is the generated
    one, [status] is "todo" whatever the body holds, a [priority] that is
    missing or [null] becomes 3, and each of [description], [due_at],
    [estimated_minutes] and [tags] is null when the body gives no value for
    it. *)
Theorem create_defaults (new_id : UUID) (now : datetime) (body : CreateBody.t)
  (item : TodoCreate.t) (db : Sql.table) :
  TodoCreate.validate body = Some item ->
  Spec.storable_body body ->
  Sql.get new_id db = None ->
  exists todo db',
    Api.POST_todos new_id now body db = (Ok todo, db')
    /\ Todo.id todo = new_id
    /\ Todo.status todo = Some "todo"
    /\ ((forall v, CreateBody.priority body <> Value v) ->
        Todo.priority todo = Some 3)
    /\ ((forall v, CreateBody.description body <> Value v) ->
        Todo.description todo = None)
    /\ ((forall v, CreateBody.due_at body <> Value v) -> Todo.due_at todo = None)
    /\ ((forall v, CreateBody.estimated_minutes body <> Value v) ->
        Todo.estimated_minutes todo = None)
    /\ ((forall v, CreateBody.tags body <> Value v) -> Todo.tags todo = None).
Proof.
  intros Hv Hst Hfresh.
  pose proof (POST_todos_run new_id now body item db Hv Hfresh Hst) as Hrun.
  cbv zeta in Hrun.
  destruct (validate_create_fields body item Hv) as (_ & Hde & Hdu & Hes & Hpr & Hta).
  eexists. eexists. split; [exact Hrun|].
  split; [reflexivity|]. split; [reflexivity|]. simpl.
  split; [|split; [|split; [|split]]]; intros Hno.
  - destruct (optional_field_no_value _ _ _ _ Hpr Hno) as [->|[_ ->]]; reflexivity.
  - destruct (optional_field_no_value _ _ _ _ Hde Hno) as [->|[_ ->]]; reflexivity.
  - destruct (optional_field_no_value _ _ _ _ Hdu Hno) as [->|[_ ->]]; reflexivity.
  - destruct (optional_field_no_value _ _ _ _ Hes Hno) as [->|[_ ->]]; reflexivity.
  - destruct (optional_field_no_value _ _ _ _ Hta Hno) as [->|[_ ->]]; reflexivity.
Qed.

(** X7.  A create never touches the records that are there: whatever the
    body and the outcome, every record that could be fetched before is
    fetched unchanged afterwards; when the generated identifier is already
    taken, a body that validates is answered 500. *)
Theorem create_keeps_records (new_id : UUID) (now : datetime)
  (body : CreateBody.t) (db : Sql.table) (other : UUID) (row : Todo.t) :
  Sql.get other db = Some row ->
  Sql.get other (snd (Api.POST_todos new_id now body db)) = Some row
  /\ (other = new_id -> TodoCreate.validate body <> None ->
      Api.POST_todos new_id now body db = (Raise HTTP_500_INTERNAL, db)).
Proof.
  intros Hrow. unfold Api.POST_todos.
  destruct (TodoCreate.validate body) as [item|]; [|split; [exact Hrow|congruence]].
  rewrite create_todo_insert.
  destruct (Sql.insert (Api.new_Todo new_id now item) db) as [db'|] eqn:Hins.
  - destruct (insert_shape _ db db' Hins) as [-> Hfresh].
    change (Todo.id (Api.new_Todo new_id now item)) with new_id in Hfresh.
    simpl. split.
    + now rewrite get_app, Hrow.
    + intros ->. congruence.
  - split; [exact Hrow|reflexivity].
Qed.

(** X8.  A delete of an existing record succeeds and removes that record
    only: the identifier is gone, every other identifier fetches what it
    fetched before, and in a table that obeys its constraints the number of
    rows goes down by one. *)
Theorem delete_removes_one (item_id : UUID) (db : Sql.table) (row : Todo.t) :
  Sql.get item_id db = Some row ->
  exists db',
    Api.delete_todo item_id db = (Ok tt, db')
    /\ Sql.get item_id db' = None
    /\ (forall other, other <> item_id -> Sql.get other db' = Sql.get other db)
    /\ (Spec.well_formed db -> S (List.length db') = List.length db).
Proof.
  intros Hrow. exists (Sql.delete item_id db).
  rewrite delete_todo_run, Hrow. split; [reflexivity|]. split; [|split].
  - now rewrite get_delete, N.eqb_refl.
  - intros other Hother. rewrite get_delete.
    destruct (N.eqb_spec other item_id); [contradiction|reflexivity].
  - intros [_ Hnd]. now apply (delete_length item_id db row).
Qed.

(** X9.  Creating a record (a body that validates and holds values that
    the backend stores, a fresh identifier) and deleting it by the returned
    identifier gives back the table as it was before the create. *)
Theorem create_then_delete (new_id : UUID) (now : datetime) (body : CreateBody.t)
  (item : TodoCreate.t) (db : Sql.table) :
  TodoCreate.validate body = Some item ->
  Spec.storable_body body ->
  Sql.get new_id db = None ->
  exists todo db',
    Api.POST_todos new_id now body db = (Ok todo, db')
    /\ Api.delete_todo (Todo.id todo) db' = (Ok tt, db).
Proof.
  intros Hv Hst Hfresh.
  pose proof (POST_todos_run new_id now body item db Hv Hfresh Hst) as Hrun.
  cbv zeta in Hrun.
  set (todo := Sql.with_defaults (Api.new_Todo new_id now item)) in *.
  exists todo, (db ++ [todo]).
  split; [exact Hrun|].
  change (Todo.id todo) with new_id.
  rewrite delete_todo_run, get_app, Hfresh.
  assert (Hself : Sql.has_id new_id todo = true) by now apply has_id_true.
  unfold Sql.get at 1. simpl. rewrite Hself.
  rewrite delete_app, (delete_absent new_id db Hfresh).
  unfold Sql.delete. simpl. rewrite Hself. simpl. now rewrite app_nil_r.
Qed.

End CreateDeleteFacts.

(** A body with a title only, created in the sample table. *)
Lemma create_defaults_witness :
  exists todo db',
    Api.POST_todos 3%N 1700000100 (Sample.titled (Value "Call home")) Sample.db
    = (Ok todo, db')
    /\ Todo.id todo = 3%N
    /\ Todo.status todo = Some "todo"
    /\ Todo.priority todo = Some 3
    /\ Todo.description todo = None
    /\ Todo.tags todo = None.
Proof.
  destruct (create_defaults 3%N 1700000100 (Sample.titled (Value "Call home"))
              (TodoCreate.mk "Call home" None None None (Some 3) None) Sample.db
              eq_refl)
    as (todo & db' & Hrun & Hid & Hst & Hpr & Hde & _ & _ & Hta).
  - storable_values.
  - reflexivity.
  - exists todo, db'.
    split; [exact Hrun|]. split; [exact Hid|]. split; [exact Hst|].
    split; [apply Hpr; discriminate|].
    split; [apply Hde; discriminate|apply Hta; discriminate].
Defined.

(** A create that draws the identifier of "Buy milk" leaves it in place. *)
Lemma create_keeps_records_witness :
  Sql.get 1%N (snd (Api.POST_todos 1%N 1700000100 Sample.eggs Sample.db))
  = Some Sample.milk
  /\ Api.POST_todos 1%N 1700000100 Sample.eggs Sample.db
     = (Raise HTTP_500_INTERNAL, Sample.db).
Proof.
  destruct (create_keeps_records 1%N 1700000100 Sample.eggs Sample.db 1%N
              Sample.milk eq_refl) as [Hkept Hfail].
  split; [exact Hkept|]. apply Hfail; [reflexivity|discriminate].
Defined.

(** Deleting "Buy milk" from the sample table. *)
Lemma delete_removes_one_witness :
  exists db',
    Api.delete_todo 1%N Sample.db = (Ok tt, db')
    /\ Sql.get 1%N db' = None
    /\ Sql.get 2%N db' = Some Sample.bread
    /\ S (List.length db') = 2%nat.
Proof.
  destruct (delete_removes_one 1%N Sample.db Sample.milk eq_refl)
    as (db' & Hrun & Hgone & Hothers & Hlen).
  exists db'. split; [exact Hrun|]. split; [exact Hgone|]. split.
  - rewrite Hothers; [reflexivity|discriminate].
  - apply Hlen. exact sample_well_formed.
Defined.

(** Creating [Sample.eggs] in the sample table, then deleting it. *)
Lemma create_then_delete_witness :
  exists todo db',
    Api.POST_todos 3%N 1700000100 Sample.eggs Sample.db = (Ok todo, db')
    /\ Api.delete_todo (Todo.id todo) db' = (Ok tt, Sample.db).
Proof.
  apply (create_then_delete 3%N 1700000100 Sample.eggs
           (TodoCreate.mk "Buy eggs" (Some "a dozen") None (Some 15) (Some 2)
                          (Some ["home"; "food"])));
    try reflexivity.
  storable_values.
Defined.

(** ** Listing *)

Section ListFacts.

Implicit Types (q tag status : option string) (db : Sql.table).

(** What [list_todos] answers, for every limit. *)
Lemma list_todos_outcome q tag status limit db :
  Api.list_todos q tag status limit db =
    match Api.Query_le 100 1000 limit with
    | None => (Raise HTTP_422_UNPROCESSABLE, db)
    | Some lim =>
        if lim <? 0 then (Raise HTTP_500_INTERNAL, db)
        else (Ok (firstn (Z.to_nat lim) (filter (Api.criteria q tag status) db)), db)
    end.
Proof.
  destruct (Api.Query_le 100 1000 limit) as [lim|] eqn:HQ.
  - destruct (Z.ltb_spec lim 0) as [Hneg|Hpos].
    + unfold Api.list_todos. rewrite HQ. unfold session_exec, Sql.exec.
      destruct (Py.truthy q), (Py.truthy tag), (Py.truthy status); simpl;
        (destruct (Z.ltb_spec lim 0); [reflexivity|lia]).
    + now apply list_todos_run.
  - unfold Api.list_todos. now rewrite HQ.
Qed.

Lemma criteria_unfiltered (row : Todo.t) : Api.criteria None None None row = true.
Proof. reflexivity. Qed.

Lemma filter_everything {A} (keep : A -> bool) (l : list A) :
  (forall a, In a l -> keep a = true) -> filter keep l = l.
Proof.
  induction l as [|a l IH]; simpl; intros H; [reflexivity|].
  rewrite (H a (or_introl eq_refl)). f_equal. apply IH.
  intros b Hb. apply H. now right.
Qed.



(** X12.  Without filters the list is the table itself, in its order, cut
    at the cap: the whole table when it has no more rows than the cap. *)
Theorem list_todos_unfiltered (limit : option Z) (db : Sql.table) :
  0 <= Spec.cap limit <= 1000 ->
  Api.list_todos None None None limit db
  = (Ok (firstn (Z.to_nat (Spec.cap limit)) db), db)
  /\ (Z.of_nat (List.length db) <= Spec.cap limit ->
      Api.list_todos None None None limit db = (Ok db, db)).
Proof.
  intros [Hlo Hhi].
  assert (Hrun : Api.list_todos None None None limit db
                 = (Ok (firstn (Z.to_nat (Spec.cap limit)) db), db)).
  { rewrite list_todos_outcome.
    replace (Api.Query_le 100 1000 limit) with (Some (Spec.cap limit)).
    - destruct (Z.ltb_spec (Spec.cap limit) 0); [lia|].
      rewrite (filter_everything (Api.criteria None None None) db); [reflexivity|].
      intros row _. apply criteria_unfiltered.
    - destruct limit as [v|]; simpl in *; [|reflexivity].
      destruct (Z.leb_spec v 1000); [reflexivity|lia]. }
  split; [exact Hrun|].
  intros Hfits. rewrite Hrun. rewrite firstn_all2; [reflexivity|lia].
Qed.

Lemma like_all_percent_empty (p : string) :
  Spec.all_percent p = true -> Sql.like p "" = true.
Proof.
  induction p as [|c p IH]; [reflexivity|].
  simpl Spec.all_percent. rewrite andb_true_iff, Ascii.eqb_eq.
  intros [-> Hp]. rewrite like_percent_step, IH; [reflexivity|exact Hp].
Qed.

Lemma lower_all_percent (p : string) :
  Spec.all_percent p = true -> Py.lower p = p.
Proof.
  induction p as [|c p IH]; [reflexivity|].
  simpl Spec.all_percent. rewrite andb_true_iff, Ascii.eqb_eq.
  intros [-> Hp]. simpl. now rewrite (IH Hp).
Qed.

Lemma all_percent_app (p r : string) :
  Spec.all_percent p = true -> Spec.all_percent r = true ->
  Spec.all_percent (p ++ r)%string = true.
Proof.
  induction p as [|c p IH]; simpl; [auto|].
  rewrite !andb_true_iff. intros [Hc Hp] Hr. auto.
Qed.

(** A pattern of [%] only matches every title. *)
Lemma ilike_all_percent (q v : string) :
  Spec.all_percent q = true ->
  Sql.ilike (Some v) ("%" ++ q ++ "%")%string = true.
Proof.
  intros Hq. unfold Sql.ilike.
  assert (Hp : Spec.all_percent (q ++ "%")%string = true)
    by (apply all_percent_app; [exact Hq|reflexivity]).
  change ("%" ++ q ++ "%")%string with (String "%" (q ++ "%")%string).
  rewrite (lower_all_percent (String "%" (q ++ "%")%string));
    [|simpl; now rewrite Hp].
  apply like_percent. exists (Py.lower v), EmptyString. split.
  - generalize (Py.lower v). intros t.
    induction t as [|x t IH]; simpl; [reflexivity|]. now rewrite <- IH.
  - now apply like_all_percent_empty.
Qed.

(** X13.  The text filter is a pattern, its special characters are not
    escaped: in a table that obeys its constraints, a text filter made of
    [%] characters only selects every record, as if no text filter had been
    given. *)
Theorem percent_filter_selects_all (q : string) (tag status : option string)
  (limit : option Z) (db : Sql.table) :
  Spec.all_percent q = true ->
  Spec.well_formed db ->
  Api.list_todos (Some q) tag status limit db
  = Api.list_todos None tag status limit db.
Proof.
  intros Hq [Hnn _]. rewrite !list_todos_outcome.
  destruct (Api.Query_le 100 1000 limit) as [lim|]; [|reflexivity].
  destruct (lim <? 0); [reflexivity|].
  f_equal. f_equal. f_equal. apply filter_ext_in. intros row Hin.
  unfold Api.criteria. destruct q as [|c q]; [reflexivity|].
  simpl Py.truthy. cbv iota.
  rewrite Forall_forall in Hnn. specialize (Hnn row Hin).
  unfold Sql.not_null in Hnn.
  destruct (Todo.title row) as [v|]; [|discriminate].
  change (Api.the (Some (String c q))) with (String c q).
  now rewrite (ilike_all_percent (String c q) v Hq).
Qed.

End ListFacts.



(** The sample table listed without filters and without limit. *)
Lemma list_todos_unfiltered_witness :
  Api.list_todos None None None None Sample.db = (Ok Sample.db, Sample.db).
Proof.
  apply (list_todos_unfiltered None Sample.db); simpl; lia.
Defined.

(** The text filter [%%] on the sample table. *)
Lemma percent_filter_selects_all_witness :
  Api.list_todos (Some "%%") (Some "home") None None Sample.db
  = Api.list_todos None (Some "home") None None Sample.db.
Proof.
  apply (percent_filter_selects_all "%%" (Some "home") None None Sample.db).
  - reflexivity.
  - exact sample_well_formed.
Defined.

(** ** More on updates *)

Section UpdateFacts.

Implicit Types (db : Sql.table) (row : Todo.t) (item_id : UUID).

Lemma delete_idem item_id db :
  Sql.delete item_id (Sql.delete item_id db) = Sql.delete item_id db.
Proof.
  apply delete_absent. now rewrite get_delete, N.eqb_refl.
Qed.

Lemma delete_self row :
  Sql.delete (Todo.id row) [row] = [].
Proof.
  unfold Sql.delete. simpl.
  replace (Sql.has_id (Todo.id row) row) with true; [reflexivity|].
  symmetry. now apply has_id_true.
Qed.

(** Writing a row again with another [updated_at] is accepted: no column
    with a constraint changes. *)
Lemma update_touch row now db :
  Sql.get (Todo.id row) db = Some row ->
  Sql.update (set_updated_at row now) db
  = Some (Sql.delete (Todo.id row) db ++ [set_updated_at row now]).
Proof.
  intros Hrow. unfold Sql.update.
  replace (Todo.id (set_updated_at row now)) with (Todo.id row)
    by (now destruct row).
  rewrite Hrow. unfold Sql.set_ok.
  destruct row as [i ti de du es st pr ta cr up]. simpl.
  rewrite !(same_refl String.eqb _ String.eqb_refl).
  rewrite !(same_refl Z.eqb _ Z.eqb_refl). reflexivity.
Qed.

Lemma merge_idem {A} (f : field A) (old : option A) :
  Spec.merge f (Spec.merge f old) = Spec.merge f old.
Proof. now destruct f. Qed.

(** Storing the items of a patch in a record that already has them changes
    nothing. *)
Lemma setattr_items_again patch now old new :
  Spec.merged patch now old new ->
  fold_left setattr (TodoUpdate.model_dump_exclude_unset patch) new = new.
Proof.
  intros (Hid & Hti & Hde & Hdu & Hes & Hst & Hpr & Hta & Hcr & Hup).
  rewrite setattr_items.
  rewrite Hti, Hde, Hdu, Hes, Hst, Hpr, Hta, !merge_idem.
  rewrite <- Hti, <- Hde, <- Hdu, <- Hes, <- Hst, <- Hpr, <- Hta.
  now destruct new.
Qed.



(** X15.  A patch without any key is not a no-op: on an existing record it
    succeeds and changes [updated_at], and nothing else. *)
Theorem empty_patch_refreshes (now : datetime) (item_id : UUID)
  (db : Sql.table) (old : Todo.t) :
  Spec.well_formed db ->
  Sql.get item_id db = Some old ->
  exists db',
    Api.PATCH_todo now item_id Spec.empty_patch db
    = (Ok (set_updated_at old now), db')
    /\ Sql.get item_id db' = Some (set_updated_at old now)
    /\ (forall other, other <> item_id -> Sql.get other db' = Sql.get other db).
Proof.
  intros Hwf Hold.
  destruct (get_Some _ _ _ Hold) as [_ Hid].
  set (new := set_updated_at old now).
  assert (Hnew_id : Todo.id new = item_id) by (unfold new; now destruct old).
  assert (Hup : Sql.update new db = Some (Sql.delete item_id db ++ [new])).
  { rewrite <- Hid. apply update_touch. now rewrite Hid. }
  exists (Sql.delete item_id db ++ [new]).
  change (Api.PATCH_todo now item_id Spec.empty_patch db)
    with (Api.update_todo now item_id Spec.empty_patch db).
  rewrite (update_todo_run now item_id Spec.empty_patch db old Hold). cbv zeta.
  change (fold_left setattr
            (TodoUpdate.model_dump_exclude_unset Spec.empty_patch) old) with old.
  fold new. rewrite Hup. split; [reflexivity|]. split.
  - rewrite (get_update new item_id db _ Hup), Hnew_id, N.eqb_refl.
    now rewrite Hold.
  - intros other Hother. rewrite (get_update new other db _ Hup), Hnew_id.
    destruct (N.eqb_spec other item_id); [contradiction|reflexivity].
Qed.

(** X16.  Sending the same patch again changes nothing but [updated_at],
    for a patch that validates, does not set [title] to [null] and holds
    values that the backend stores: the second response is the first with
    [updated_at] set to the time of the second request, and when the two
    times are equal the table after the second request is the table after
    the first. *)
Theorem patch_repeated (now1 now2 : datetime) (item_id : UUID)
  (body patch : TodoUpdate.t) (db : Sql.table) (old : Todo.t) :
  Spec.well_formed db ->
  Sql.get item_id db = Some old ->
  TodoUpdate.validate body = Some patch ->
  TodoUpdate.title body <> Null ->
  Spec.storable_patch body ->
  exists new db1 db2,
    Api.PATCH_todo now1 item_id body db = (Ok new, db1)
    /\ Api.PATCH_todo now2 item_id body db1 = (Ok (set_updated_at new now2), db2)
    /\ (now2 = now1 -> db2 = db1).
Proof.
  intros Hwf Hold Hv Hti Hst.
  pose proof (validate_patch body patch Hv) as ->.
  destruct (update_todo_ok now1 item_id body db old Hwf Hold Hti Hst)
    as (new & db1 & Hrun & Hup & Hget & Hm).
  assert (Hid : Todo.id new = item_id).
  { destruct Hm as (Hid & _). rewrite Hid.
    now destruct (get_Some _ _ _ Hold). }
  set (new2 := set_updated_at new now2).
  assert (Hup2 : Sql.update new2 db1 = Some (Sql.delete item_id db1 ++ [new2])).
  { rewrite <- Hid. apply update_touch. now rewrite Hid. }
  exists new, db1, (Sql.delete item_id db1 ++ [new2]).
  unfold Api.PATCH_todo. rewrite Hv.
  split; [exact Hrun|]. split.
  - rewrite (update_todo_run now2 item_id body db1 new Hget). cbv zeta.
    rewrite (setattr_items_again body now1 old new Hm).
    fold new2. now rewrite Hup2.
  - intros ->.
    assert (Hsame : new2 = new).
    { unfold new2. destruct Hm as (_ & _ & _ & _ & _ & _ & _ & _ & _ & Hu).
      destruct new. simpl in *. now rewrite Hu. }
    rewrite Hsame.
    destruct (update_shape new db db1 Hup) as [_ Hdb1].
    rewrite Hid in Hdb1. rewrite Hdb1 at 1.
    rewrite delete_app, delete_idem, <- Hid, delete_self, app_nil_r.
    rewrite Hid. now rewrite Hdb1.
Qed.

End UpdateFacts.


(** An empty patch on "Buy milk". *)
Lemma empty_patch_refreshes_witness :
  exists db',
    Api.PATCH_todo 1700000100 1%N Spec.empty_patch Sample.db
    = (Ok (set_updated_at Sample.milk 1700000100), db')
    /\ Sql.get 1%N db' = Some (set_updated_at Sample.milk 1700000100)
    /\ (forall other, other <> 1%N -> Sql.get other db' = Sql.get other Sample.db).
Proof.
  apply (empty_patch_refreshes 1700000100 1%N Sample.db Sample.milk).
  - exact sample_well_formed.
  - reflexivity.
Defined.

(** [Sample.clearing] sent twice to "Buy milk". *)
Lemma patch_repeated_witness :
  exists new db1 db2,
    Api.PATCH_todo 1700000100 1%N Sample.clearing Sample.db = (Ok new, db1)
    /\ Api.PATCH_todo 1700000200 1%N Sample.clearing db1
       = (Ok (set_updated_at new 1700000200), db2)
    /\ (1700000200 = 1700000100 -> db2 = db1).
Proof.
  apply (patch_repeated 1700000100 1700000200 1%N Sample.clearing Sample.clearing
           Sample.db Sample.milk).
  - exact sample_well_formed.
  - reflexivity.
  - reflexivity.
  - discriminate.
  - storable_values.
Defined.

(** ** The response schema *)

Section ResponseFacts.

Implicit Types (db : Sql.table) (row : Todo.t) (item_id : UUID).


Lemma validate_read_ok row :
  TodoRead.validate row <> None
  <-> Sql.not_null row = true
      /\ TodoRead.value_ok (ge 0) (Todo.estimated_minutes row) = true
      /\ TodoRead.value_ok (ge_le 1 5) (Todo.priority row) = true.
Proof.
  unfold TodoRead.validate, Sql.not_null.
  destruct (Todo.title row) as [ti|].
  - destruct (TodoRead.value_ok (ge 0) _), (TodoRead.value_ok (ge_le 1 5) _);
      simpl; split; intros H; try discriminate; try tauto;
      destruct H as (_ & H1 & H2); discriminate.
  - split; [tauto|]. intros (H & _). discriminate.
Qed.

Lemma optional_field_in_range (constraint : Z -> bool) (default : option Z)
  (f : field Z) (v : option Z) :
  optional_field default constraint f = Some v ->
  TodoRead.value_ok constraint default = true ->
  TodoRead.value_ok constraint v = true.
Proof.
  destruct f as [| |a|]; simpl; intros H Hd; try discriminate.
  - now injection H as <-.
  - now injection H as <-.
  - destruct (constraint a) eqn:E; [|discriminate]. now injection H as <-.
Qed.

(** What validation lets through is in range. *)
Lemma validate_create_in_range (body : CreateBody.t) (item : TodoCreate.t) :
  TodoCreate.validate body = Some item ->
  TodoRead.value_ok (ge 0) (TodoCreate.estimated_minutes item) = true
  /\ TodoRead.value_ok (ge_le 1 5) (TodoCreate.priority item) = true.
Proof.
  intros Hv.
  destruct (validate_create_fields body item Hv) as (_ & _ & _ & Hes & Hpr & _).
  split; eapply optional_field_in_range; try eassumption; reflexivity.
Qed.

Lemma merge_in_range (constraint : Z -> bool) (f : field Z) (old : option Z) :
  TodoUpdate.field_ok constraint f = true ->
  TodoRead.value_ok constraint old = true ->
  TodoRead.value_ok constraint (Spec.merge f old) = true.
Proof.
  unfold TodoUpdate.field_ok. destruct f as [| |v|]; simpl; auto.
  now destruct (constraint v).
Qed.

Lemma validate_update_in_range (body patch : TodoUpdate.t) :
  TodoUpdate.validate body = Some patch ->
  TodoUpdate.field_ok (ge 0) (TodoUpdate.estimated_minutes patch) = true
  /\ TodoUpdate.field_ok (ge_le 1 5) (TodoUpdate.priority patch) = true.
Proof.
  intros Hv. pose proof (validate_patch body patch Hv) as ->.
  unfold TodoUpdate.validate in Hv.
  match type of Hv with (if ?c then _ else _) = _ => destruct c eqn:E end;
    [|discriminate].
  rewrite !andb_true_iff in E. tauto.
Qed.

(** The row that a validated patch commits passes the response schema. *)
Lemma patched_row_valid now patch body old new db db' :
  TodoUpdate.validate body = Some patch ->
  Spec.schema_valid db ->
  Sql.get (Todo.id new) db = Some old ->
  new = set_updated_at
          (fold_left setattr (TodoUpdate.model_dump_exclude_unset patch) old) now ->
  Sql.update new db = Some db' ->
  TodoRead.validate new <> None.
Proof.
  intros Hv Hsv Hold Hnew Hup.
  destruct (validate_update_in_range body patch Hv) as [Hes Hpr].
  assert (Hnn : Forall (fun r => Sql.not_null r = true) db).
  { eapply Forall_impl; [|exact Hsv]. intros r Hr.
    now apply validate_read_ok in Hr. }
  pose proof (update_not_null new db db' Hnn Hup) as Hnew_nn.
  assert (Hold_ok : TodoRead.validate old <> None).
  { unfold Spec.schema_valid in Hsv. rewrite Forall_forall in Hsv.
    apply Hsv. now apply (get_Some (Todo.id new) db old). }
  apply validate_read_ok in Hold_ok. destruct Hold_ok as (_ & Hes0 & Hpr0).
  apply validate_read_ok. split; [exact Hnew_nn|].
  rewrite Hnew, setattr_items. simpl.
  split; now apply merge_in_range.
Qed.

(** X17.  The constraints of the response schema hold for every stored
    record, once they hold: a title is present, [estimated_minutes] is not
    negative and [priority] is from 1 to 5 when they are present.  Create,
    update and delete keep it so, whatever their outcome. *)
Theorem schema_valid_invariant (db : Sql.table) :
  Spec.schema_valid db ->
  (forall new_id now body,
      Spec.schema_valid (snd (Api.POST_todos new_id now body db))) /\
  (forall now item_id body,
      Spec.schema_valid (snd (Api.PATCH_todo now item_id body db))) /\
  (forall item_id, Spec.schema_valid (snd (Api.delete_todo item_id db))).
Proof.
  intros Hsv. split; [|split].
  - intros new_id now body. unfold Api.POST_todos.
    destruct (TodoCreate.validate body) as [item|] eqn:Hv; [|exact Hsv].
    rewrite create_todo_insert.
    destruct (Sql.insert _ db) as [db'|] eqn:Hins; [|exact Hsv].
    destruct (insert_shape _ db db' Hins) as [-> _].
    simpl. apply Forall_app. split; [exact Hsv|].
    constructor; [|constructor].
    apply validate_read_ok. split; [reflexivity|].
    destruct (validate_create_in_range body item Hv) as [Hes Hpr].
    split; [exact Hes|]. simpl.
    now destruct (TodoCreate.priority item).
  - intros now item_id body. unfold Api.PATCH_todo.
    destruct (TodoUpdate.validate body) as [patch|] eqn:Hv; [|exact Hsv].
    destruct (Sql.get item_id db) as [old|] eqn:Hold.
    + rewrite (update_todo_run now item_id patch db old Hold). cbv zeta.
      destruct (Sql.update _ db) as [db'|] eqn:Hup; [|exact Hsv].
      simpl.
      match type of Hup with Sql.update ?r db = _ => set (new := r) in * end.
      assert (Hid : Todo.id new = item_id).
      { unfold new. rewrite setattr_items. simpl.
        now destruct (get_Some _ _ _ Hold). }
      assert (Hnew : TodoRead.validate new <> None).
      { apply (patched_row_valid now patch body old new db db' Hv Hsv);
          [now rewrite Hid|reflexivity|exact Hup]. }
      destruct (update_shape new db db' Hup) as [_ ->].
      apply Forall_app. split; [|now constructor].
      unfold Sql.delete. apply Forall_forall. intros r Hr.
      apply filter_In in Hr. unfold Spec.schema_valid in Hsv.
      rewrite Forall_forall in Hsv. now apply Hsv.
    + now rewrite update_todo_missing.
  - intros item_id. rewrite delete_todo_run.
    destruct (Sql.get item_id db); [|exact Hsv].
    simpl. unfold Sql.delete. apply Forall_forall. intros r Hr.
    apply filter_In in Hr. unfold Spec.schema_valid in Hsv.
    rewrite Forall_forall in Hsv. now apply Hsv.
Qed.




End ResponseFacts.

Lemma sample_schema_valid : Spec.schema_valid Sample.db.
Proof. repeat constructor; discriminate. Qed.

(** The constraints of the sample table after any create, update or
    delete. *)
Lemma schema_valid_invariant_witness :
  (forall new_id now body,
      Spec.schema_valid (snd (Api.POST_todos new_id now body Sample.db))) /\
  (forall now item_id body,
      Spec.schema_valid (snd (Api.PATCH_todo now item_id body Sample.db))) /\
  (forall item_id, Spec.schema_valid (snd (Api.delete_todo item_id Sample.db))).
Proof.
  exact (schema_valid_invariant Sample.db sample_schema_valid).
Defined.


(** The declared constraints of the sample table after any request. *)
Lemma well_formed_invariant_witness :
  (forall new_id now body,
      Spec.well_formed (snd (Api.POST_todos new_id now body Sample.db))) /\
  (forall now item_id body,
      Spec.well_formed (snd (Api.PATCH_todo now item_id body Sample.db))) /\
  (forall item_id, Spec.well_formed (snd (Api.delete_todo item_id Sample.db))) /\
  (forall item_id, snd (Api.get_todo item_id Sample.db) = Sample.db) /\
  (forall q tag status limit,
      snd (Api.list_todos q tag status limit Sample.db) = Sample.db).
Proof.
  exact (well_formed_invariant Sample.db sample_well_formed).
Defined.

(** ** The connection arguments *)

Lemma endswith_step (s suffix : string) :
  Py.endswith s suffix =
    String.eqb s suffix
    || match s with
       | EmptyString => false
       | String _ s' => Py.endswith s' suffix
       end.
Proof. now destruct s. Qed.

Lemma endswith_suffix (s suffix : string) :
  Py.endswith s suffix = true <-> exists pre, s = (pre ++ suffix)%string.
Proof.
  induction s as [|c s IH]; rewrite endswith_step, orb_true_iff, String.eqb_eq.
  - split.
    + intros [<-|H]; [now exists EmptyString|discriminate].
    + intros (pre & E). left. destruct pre; [exact E|discriminate].
  - rewrite IH. split.
    + intros [<-|(pre & ->)]; [now exists EmptyString|now exists (String c pre)].
    + intros (pre & E). destruct pre as [|x pre]; simpl in E.
      * now left.
      * right. injection E as _ ->. now exists pre.
Qed.

Lemma host_endswith (hostname : option string) (suffix : string) :
  suffix <> "" ->
  Py.truthy hostname && Py.endswith (Api.the hostname) suffix = true
  <-> exists pre, hostname = Some (pre ++ suffix)%string.
Proof.
  intros Hne. destruct hostname as [[|c h]|].
  - split; [discriminate|]. intros (pre & E). injection E as E.
    destruct pre; simpl in E; [symmetry in E; contradiction|discriminate].
  - change (Py.truthy (Some (String c h))) with true.
    change (Api.the (Some (String c h))) with (String c h).
    rewrite andb_true_l, endswith_suffix. split.
    + intros (pre & ->). now exists pre.
    + intros (pre & E). injection E as ->. now exists pre.
  - split; [discriminate|]. intros (pre & E). discriminate.
Qed.

Lemma qs_has_key (key : string) (qs : list string) :
  existsb (String.eqb key) qs = true <-> In key qs.
Proof.
  rewrite existsb_exists. split.
  - intros (x & Hx & E). apply String.eqb_eq in E. now subst.
  - intros H. exists key. split; [exact H|apply String.eqb_refl].
Qed.

(** X20.  The connection requires TLS exactly when the URL was parsed, its
    host name ends in [supabase.co] and its query string has no [sslmode]
    key; in every other case, also when parsing failed, no connection
    argument is set, so an [sslmode] given in the URL is never overridden. *)
Theorem connect_args_sslmode (parsed : option (option string * list string)) :
  (Db.connect_args parsed = [("sslmode", "require")]
   <-> exists pre qs,
         parsed = Some (Some (pre ++ "supabase.co")%string, qs)
         /\ ~ In "sslmode" qs)
  /\ (Db.connect_args parsed <> [("sslmode", "require")] ->
      Db.connect_args parsed = []).
Proof.
  unfold Db.connect_args. destruct parsed as [[hostname qs]|].
  - pose proof (host_endswith hostname "supabase.co") as Hhost.
    pose proof (qs_has_key "sslmode" qs) as Hkey.
    destruct (Py.truthy hostname && Py.endswith (Api.the hostname) "supabase.co").
    + destruct (existsb (String.eqb "sslmode") qs); cbv beta iota delta [negb].
      * split; [|reflexivity]. split; [discriminate|].
        intros (pre & qs' & E & Hno). injection E as _ <-.
        exfalso. apply Hno. now apply Hkey.
      * split; [|congruence]. split; [|reflexivity].
        intros _. destruct (proj1 (Hhost ltac:(discriminate)) eq_refl) as (pre & ->).
        exists pre, qs. split; [reflexivity|].
        intros H. apply Hkey in H. discriminate.
    + split; [|reflexivity]. split; [discriminate|].
      intros (pre & qs' & E & _). injection E as -> _.
      enough (X : false = true) by discriminate.
      apply Hhost; [discriminate|]. now exists pre.
  - split; [|reflexivity]. split; [discriminate|].
    intros (pre & qs' & E & _). discriminate.
Qed.

(** A Supabase host without [sslmode] in its URL. *)
Lemma connect_args_sslmode_witness :
  Db.connect_args (Some (Some "db.abc.supabase.co", ["connect_timeout"]))
  = [("sslmode", "require")]
  /\ Db.connect_args (Some (Some "db.abc.supabase.co", ["sslmode"])) = [].
Proof.
  split.
  - apply (connect_args_sslmode
             (Some (Some "db.abc.supabase.co", ["connect_timeout"]))).
    exists "db.abc.", ["connect_timeout"]. split; [reflexivity|].
    simpl. intros [H|[]]. discriminate.
  - apply (connect_args_sslmode (Some (Some "db.abc.supabase.co", ["sslmode"]))).
    discriminate.
Defined.
